(** * Expense approval routing (hell.py): a shallow embedding

    The Flask module keeps four global dictionaries (COMPANIES, USERS,
    EXPENSES, APPROVAL_RULES) and three id counters.  Every route handler
    is embedded as a function from the global state (and the request
    payload) to the new global state and the HTTP outcome.  Python
    dictionaries keep insertion order, and [find_user_by_role] and the
    pending listing depend on it, so a dictionary is an association list
    in insertion order.  Role, status and action values are the strings
    the program compares. *)

From Stdlib Require Import ZArith QArith Floats Ascii String.
From stdpp Require Import gmap strings list pretty sorting.

Local Open Scope string_scope.
Local Open Scope Z_scope.

(** ** Python built-ins used by the program *)

Module Py.

(** [dict] with integer keys, in insertion order. *)
Definition dict (V : Type) : Type := list (Z * V).

(** [d.get(k)] *)
Fixpoint get {V} (k : Z) (d : dict V) : option V :=
  match d with
  | [] => None
  | (k', v) :: d' => if decide (k = k') then Some v else get k d'
  end.

(** [d[k] = v]: an existing key keeps its position, a new key goes last. *)
Fixpoint set {V} (k : Z) (v : V) (d : dict V) : dict V :=
  match d with
  | [] => [(k, v)]
  | (k', v') :: d' =>
      if decide (k = k') then (k, v) :: d' else (k', v') :: set k v d'
  end.

(** [d.values()] *)
Definition values {V} (d : dict V) : list V := snd <$> d.

(** [l[i]] on a list: a negative index counts from the end; [None]
    stands for IndexError. *)
Definition index {A} (l : list A) (i : Z) : option A :=
  if decide (0 ≤ i) then l !! Z.to_nat i
  else if decide (- Z.of_nat (length l) ≤ i)
       then l !! Z.to_nat (Z.of_nat (length l) + i)
       else None.

Definition is_upper (c : ascii) : bool :=
  let n := N_of_ascii c in (65 <=? n)%N && (n <=? 90)%N.
Definition is_lower (c : ascii) : bool :=
  let n := N_of_ascii c in (97 <=? n)%N && (n <=? 122)%N.
Definition to_upper (c : ascii) : ascii :=
  if is_lower c then ascii_of_N (N_of_ascii c - 32) else c.
Definition to_lower (c : ascii) : ascii :=
  if is_upper c then ascii_of_N (N_of_ascii c + 32) else c.

Fixpoint map_chars (f : ascii → ascii) (s : string) : string :=
  match s with
  | EmptyString => EmptyString
  | String c s' => String (f c) (map_chars f s')
  end.

(** [s.isascii()]: a string is held as its bytes, and every byte is
    below 128. *)
Fixpoint isascii (s : string) : bool :=
  match s with
  | EmptyString => true
  | String c s' => (N_of_ascii c <? 128)%N && isascii s'
  end.

(** [s.upper()] and [s.capitalize()] of a string for which [s.isascii()]
    holds: the letters a-z and A-Z change case, every other character
    stays.  On other text Python maps the letters of every script by the
    Unicode tables ('ßreject'.capitalize() is 'Ssreject'); the two
    functions below leave the bytes above 127 as they are, so what is
    stated about their results is stated for ASCII text. *)
Definition upper (s : string) : string := map_chars to_upper s.
Definition capitalize (s : string) : string :=
  match s with
  | EmptyString => EmptyString
  | String c s' => String (to_upper c) (map_chars to_lower s')
  end.

(** Truth value of an optional string / optional integer
    ([None], [''] and [0] are false). *)
Definition truthy_str (o : option string) : bool :=
  match o with Some s => negb (bool_decide (s = "")) | None => false end.
Definition truthy_int (o : option Z) : bool :=
  match o with Some z => negb (bool_decide (z = 0)) | None => false end.

(** What evaluating an expression gives: its value, or the exception it
    raises. *)
Inductive result (A : Type) : Type :=
| Return (a : A)
| Raise (exn : string).
Arguments Return {A} a.
Arguments Raise {A} exn.

(** [float(z)], which is also how an integer operand is converted when
    the other operand is a float: the binary64 number nearest to the
    integer, ties to even; [None] is the OverflowError raised for an
    integer beyond the binary64 range. *)
Definition float_of_int (z : Z) : option float :=
  let x := SF2Prim (binary_normalize prec emax z 0 false) in
  if PrimFloat.is_infinity x then None else Some x.

(** An integer of any size as an operand of a correctly rounded
    operation. *)
Definition exact (z : Z) : spec_float :=
  match z with
  | Z0 => S754_zero false
  | Zpos p => S754_finite false p 0
  | Zneg p => S754_finite true p 0
  end.

(** [a / b] on two integers: the binary64 number nearest to the exact
    quotient, ties to even.  Python raises ZeroDivisionError for a zero
    divisor and OverflowError for a quotient beyond the binary64
    range. *)
Definition truediv (a b : Z) : result float :=
  if decide (b = 0) then Raise "ZeroDivisionError"
  else
    let q := SF2Prim (SFdiv prec emax (exact a) (exact b)) in
    if PrimFloat.is_infinity q then Raise "OverflowError" else Return q.

(** [x >= y] on floats. *)
Definition float_ge (x y : float) : bool := PrimFloat.leb y x.

End Py.

(** ** Data model: the values held by the global dictionaries *)

Module Company.
Record t : Type := mk { id : Z; name : string; currency : string }.
End Company.

Module User.
Record t : Type := mk {
  id : Z;
  company_id : Z;
  email : string;
  role : string;
  manager_id : option Z
}.
End User.

(** One entry of 'flow_steps'.  A missing 'is_manager_approver' key reads
    as False. *)
Module Step.
Record t : Type := mk { role : string; is_manager_approver : bool }.
End Step.

(** The 'conditional_rule' payload: every key is optional. *)
Module Rule.
Record t : Type := mk {
  type : option string;
  required_role : option string;
  threshold : option Z;
  specific_role : option string
}.
Definition empty : t := mk None None None None.
End Rule.

Module Flow.
Record t : Type := mk { steps : list Step.t; conditional : Rule.t }.
End Flow.

(** 'approver_id' of a history entry: a user id, or the string 'System'. *)
Inductive actor : Type :=
| ById (uid : Z)
| BySystem.

Module Approval.
Record t : Type := mk {
  approver_id : actor;
  role : string;
  status : string;
  comment : string;
  timestamp : string
}.
End Approval.

Module Expense.
Record t : Type := mk {
  id : Z;
  user_id : Z;
  amount : float;
  currency : string;
  category : string;
  description : string;
  date : string;
  status : string;
  current_step : Z;
  current_approver_id : option Z;
  approvals_history : list Approval.t
}.

Definition with_history (h : list Approval.t) (e : t) : t :=
  mk (id e) (user_id e) (amount e) (currency e) (category e)
     (description e) (date e) (status e) (current_step e)
     (current_approver_id e) h.
Definition with_status (st : string) (e : t) : t :=
  mk (id e) (user_id e) (amount e) (currency e) (category e)
     (description e) (date e) st (current_step e)
     (current_approver_id e) (approvals_history e).
Definition with_current_step (n : Z) (e : t) : t :=
  mk (id e) (user_id e) (amount e) (currency e) (category e)
     (description e) (date e) (status e) n
     (current_approver_id e) (approvals_history e).
Definition with_current_approver_id (a : option Z) (e : t) : t :=
  mk (id e) (user_id e) (amount e) (currency e) (category e)
     (description e) (date e) (status e) (current_step e)
     a (approvals_history e).
End Expense.

(** The module's global variables. *)
Record state : Type := mkState {
  COMPANIES : Py.dict Company.t;
  USERS : Py.dict User.t;
  EXPENSES : Py.dict Expense.t;
  APPROVAL_RULES : Py.dict Flow.t;
  NEXT_COMPANY_ID : Z;
  NEXT_USER_ID : Z;
  NEXT_EXPENSE_ID : Z
}.

Definition initial_state : state := mkState [] [] [] [] 1 1 1.

Definition ROLES : list string :=
  ["Admin"; "Manager"; "Employee"; "Finance"; "Director"].
Definition DEFAULT_ENV_CURRENCY : string := "USD".

(** ** Helper functions *)

Definition get_current_user (USERS : Py.dict User.t) (user_id : option Z)
  : option User.t :=
  match user_id with
  | Some k => Py.get k USERS
  | None => None
  end.

Definition find_user_by_role (USERS : Py.dict User.t) (company_id : Z)
    (role : string) : option User.t :=
  List.find
    (λ user, bool_decide (User.company_id user = company_id)
             && bool_decide (User.role user = role))
    (Py.values USERS).

(** ** The conditional rule evaluator ([apply_conditional_rules]) *)

Definition flow_roles_of (flow_steps : list Step.t) : gset string :=
  list_to_set (Step.role <$> flow_steps).

(** [any(a['role'] == r and a['status'] == 'Approved' for a in history)] *)
Definition specific_approved (r : string) (approvals_history : list Approval.t)
  : bool :=
  existsb
    (λ a, bool_decide (Approval.role a = r)
          && bool_decide (Approval.status a = "Approved"))
    approvals_history.

(** [{a['role'] for a in history
      if a['status'] == 'Approved' and a['role'] in flow_roles}] *)
Definition approved_roles (flow_roles : gset string)
    (approvals_history : list Approval.t) : gset string :=
  list_to_set
    (Approval.role <$>
       filter (λ a, Approval.status a = "Approved" ∧ Approval.role a ∈ flow_roles)
              approvals_history).

(** [threshold = rules['threshold'] / 100.0], then
    [len(flow_roles) > 0 and
     len(approved_roles) / len(flow_roles) >= threshold],
    in binary64 arithmetic as Python computes it.  The first division
    converts the integer threshold to a float and raises OverflowError
    when it is too large for one; the second is not reached when the
    first operand of [and] is false. *)
Definition percentage_met (flow_roles : gset string)
    (approvals_history : list Approval.t) (threshold : Z) : Py.result bool :=
  match Py.float_of_int threshold with
  | None => Py.Raise "OverflowError"
  | Some x =>
    let threshold := PrimFloat.div x 100%float in
    let approved := approved_roles flow_roles approvals_history in
    if bool_decide (0 < size flow_roles)%nat
    then
      match Py.truediv (Z.of_nat (size approved))
                       (Z.of_nat (size flow_roles)) with
      | Py.Return ratio => Py.Return (Py.float_ge ratio threshold)
      | Py.Raise exn => Py.Raise exn
      end
    else Py.Return false
  end.

Definition specific_message (r : string) : string :=
  "Conditional Rule Met: Specific approver (" ++ r ++ ") Approved.".
Definition percentage_message (threshold : Z) : string :=
  "Conditional Rule Met: " ++ pretty threshold ++ "% of approvers have approved.".
Definition hybrid_specific_message (r : string) : string :=
  "Conditional Hybrid Rule Met: Specific approver (" ++ r ++ ") Approved.".
Definition hybrid_percentage_message (threshold : Z) : string :=
  "Conditional Hybrid Rule Met: " ++ pretty threshold
    ++ "% of approvers have approved.".

(** The three [if] blocks of the function, one after the other; each
    yields [Some result] when it returns and [None] when control falls
    through to the next block.  The second and the third compute the
    threshold fraction and raise what that raises. *)
Definition specific_block (rules : Rule.t) (approvals_history : list Approval.t)
  : option (bool * option string) :=
  if bool_decide (Rule.type rules = Some "Specific")
     && Py.truthy_str (Rule.required_role rules)
  then
    let required_role := default "" (Rule.required_role rules) in
    if specific_approved required_role approvals_history
    then Some (true, Some (specific_message required_role))
    else None
  else None.

Definition percentage_block (rules : Rule.t) (flow_roles : gset string)
    (approvals_history : list Approval.t)
  : Py.result (option (bool * option string)) :=
  if bool_decide (Rule.type rules = Some "Percentage")
     && Py.truthy_int (Rule.threshold rules)
  then
    let threshold := default 0 (Rule.threshold rules) in
    match percentage_met flow_roles approvals_history threshold with
    | Py.Raise exn => Py.Raise exn
    | Py.Return true =>
        Py.Return (Some (true, Some (percentage_message threshold)))
    | Py.Return false => Py.Return None
    end
  else Py.Return None.

Definition hybrid_block (rules : Rule.t) (flow_roles : gset string)
    (approvals_history : list Approval.t)
  : Py.result (option (bool * option string)) :=
  if bool_decide (Rule.type rules = Some "Hybrid")
     && Py.truthy_str (Rule.specific_role rules)
     && Py.truthy_int (Rule.threshold rules)
  then
    let specific_role := default "" (Rule.specific_role rules) in
    if specific_approved specific_role approvals_history
    then Py.Return (Some (true, Some (hybrid_specific_message specific_role)))
    else
      let threshold := default 0 (Rule.threshold rules) in
      match percentage_met flow_roles approvals_history threshold with
      | Py.Raise exn => Py.Raise exn
      | Py.Return true =>
          Py.Return (Some (true, Some (hybrid_percentage_message threshold)))
      | Py.Return false => Py.Return None
      end
  else Py.Return None.

(** The function returns a pair, or raises the OverflowError of the
    threshold division. *)
Definition apply_conditional_rules (APPROVAL_RULES : Py.dict Flow.t)
    (company_id : Z) (approvals_history : list Approval.t)
  : Py.result (bool * option string) :=
  let rules :=
    match Py.get company_id APPROVAL_RULES with
    | Some flow => Flow.conditional flow
    | None => Rule.empty
    end in
  let flow_steps :=
    match Py.get company_id APPROVAL_RULES with
    | Some flow => Flow.steps flow
    | None => []
    end in
  let flow_roles := flow_roles_of flow_steps in
  match specific_block rules approvals_history with
  | Some r => Py.Return r
  | None =>
    match percentage_block rules flow_roles approvals_history with
    | Py.Raise exn => Py.Raise exn
    | Py.Return (Some r) => Py.Return r
    | Py.Return None =>
      match hybrid_block rules flow_roles approvals_history with
      | Py.Raise exn => Py.Raise exn
      | Py.Return (Some r) => Py.Return r
      | Py.Return None => Py.Return (false, None)
      end
    end
  end.

(** ** HTTP outcomes

    A handler either returns [jsonify(body), code] or lets an exception
    escape (Flask then answers 500); in both cases the mutations made so
    far on the global dictionaries stay. *)

#[local] Unset Elimination Schemes.
Inductive json : Type :=
| JNull
| JInt (z : Z)
| JStr (s : string)
| JList (l : list json)
| JObj (o : list (string * json)).
#[local] Set Elimination Schemes.

Record response : Type := mkResponse { body : list (string * json); code : Z }.

Inductive outcome : Type :=
| Returns (r : response)
| Raises (exn : string).

Definition jsonify (body : list (string * json)) (code : Z) : outcome :=
  Returns (mkResponse body code).

Definition message (msg : string) (code : Z) : outcome :=
  jsonify [("message", JStr msg)] code.

Definition json_of_id (o : option Z) : json :=
  match o with Some z => JInt z | None => JNull end.

(** The HTTP status of an outcome (an escaped exception is a 500). *)
Definition status_code (o : outcome) : Z :=
  match o with Returns r => code r | Raises _ => 500 end.

(** ** 1. Authentication and initial setup *)

Definition create_initial_company_and_admin (user_email : string) (s : state)
  : state * User.t :=
  let company_id := NEXT_COMPANY_ID s in
  let companies :=
    Py.set company_id
      (Company.mk company_id ("Default Company " ++ pretty company_id)
                  DEFAULT_ENV_CURRENCY)
      (COMPANIES s) in
  let user_id := NEXT_USER_ID s in
  let user := User.mk user_id company_id user_email "Admin" None in
  (mkState companies (Py.set user_id user (USERS s)) (EXPENSES s)
           (APPROVAL_RULES s) (NEXT_COMPANY_ID s + 1) (NEXT_USER_ID s + 1)
           (NEXT_EXPENSE_ID s),
   user).

Definition signup (user_email : string) (s : state) : state * outcome :=
  match USERS s with
  | [] =>
      let '(s', admin_user) := create_initial_company_and_admin user_email s in
      match Py.get (User.company_id admin_user) (COMPANIES s') with
      | None => (s', Raises "KeyError")
      | Some company =>
          (s', jsonify
                 [("message", JStr "Initial Company and Admin User auto-created successfully. Use ID 1 to manage.");
                  ("user_id", JInt (User.id admin_user));
                  ("role", JStr (User.role admin_user));
                  ("company_currency", JStr (Company.currency company))]
                 201)
      end
  | _ :: _ => (s, message "Use /admin/manage_user to create other employees." 400)
  end.

(** ** 2. Admin user management *)

Record manage_user_request : Type := mkManageUser {
  mu_email : string;
  mu_role : string;
  mu_manager_id : option Z
}.

Definition is_admin (o : option User.t) : bool :=
  match o with
  | Some u => bool_decide (User.role u = "Admin")
  | None => false
  end.

Definition invalid_manager (USERS : Py.dict User.t) (manager_id : option Z)
  : bool :=
  Py.truthy_int manager_id &&
  match get_current_user USERS manager_id with
  | None => true
  | Some manager_user =>
      negb (bool_decide (User.role manager_user ∈ ["Manager"; "Admin"]))
  end.

Definition manage_user (data : manage_user_request) (s : state)
  : state * outcome :=
  match get_current_user (USERS s) (Some 1) with
  | Some admin_user =>
    if negb (bool_decide (User.role admin_user = "Admin"))
    then (s, message "Permission denied. Requires Admin role." 403)
    else if negb (bool_decide (mu_role data ∈ ROLES))
    then (s, message "Invalid role. Must be one of: Admin, Manager, Employee, Finance, Director." 400)
    else
      let user_id := NEXT_USER_ID s in
      if invalid_manager (USERS s) (mu_manager_id data)
      then (s, message "Invalid manager_id. Manager must have Manager/Admin role." 400)
      else
        let user :=
          User.mk user_id (User.company_id admin_user) (mu_email data)
                  (mu_role data) (mu_manager_id data) in
        (mkState (COMPANIES s) (Py.set user_id user (USERS s)) (EXPENSES s)
                 (APPROVAL_RULES s) (NEXT_COMPANY_ID s) (NEXT_USER_ID s + 1)
                 (NEXT_EXPENSE_ID s),
         jsonify
           [("message", JStr (mu_role data ++ " " ++ mu_email data
                                ++ " created successfully."));
            ("user_id", JInt user_id);
            ("manager_id", json_of_id (mu_manager_id data))]
           201)
  | None => (s, message "Permission denied. Requires Admin role." 403)
  end.

(** ** 3. Admin: configure approval rules *)

Record approval_flow_request : Type := mkApprovalFlow {
  flow_steps : option (list Step.t);
  conditional_rule : option Rule.t
}.

(** [all(step['role'] in ROLES for step in data['flow_steps'])] *)
Definition valid_roles (flow_steps : list Step.t) : bool :=
  forallb (λ step, bool_decide (Step.role step ∈ ROLES)) flow_steps.

Definition configure_approval_flow (data : approval_flow_request) (s : state)
  : state * outcome :=
  match get_current_user (USERS s) (Some 1) with
  | Some admin_user =>
    if negb (bool_decide (User.role admin_user = "Admin"))
    then (s, message "Permission denied. Requires Admin role." 403)
    else
      let company_id := User.company_id admin_user in
      match flow_steps data, conditional_rule data with
      | Some steps, Some rule =>
          if negb (valid_roles steps)
          then (s, message "One or more roles in flow_steps are invalid." 400)
          else
            (mkState (COMPANIES s) (USERS s) (EXPENSES s)
                     (Py.set company_id (Flow.mk steps rule) (APPROVAL_RULES s))
                     (NEXT_COMPANY_ID s) (NEXT_USER_ID s) (NEXT_EXPENSE_ID s),
             jsonify
               [("message", JStr "Approval flow configured successfully.");
                ("steps_count", JInt (Z.of_nat (length steps)))]
               201)
      | _, _ =>
          (s, message "Missing 'flow_steps' or 'conditional_rule' in request." 400)
      end
  | None => (s, message "Permission denied. Requires Admin role." 403)
  end.

(** ** 4. Expense submission *)

Record submit_request : Type := mkSubmit {
  sr_amount : option float;
  sr_currency : option string;
  sr_category : option string;
  sr_description : option string;
  sr_date : option string
}.

(** Lines 252-263: who approves the first step.  The submitter's manager
    is taken only for a step whose role is 'Manager' and whose flag is
    set; any other first step is looked up by role. *)
Definition first_step_approver (USERS : Py.dict User.t) (current_user : User.t)
    (first_step : Step.t) : option Z :=
  if bool_decide (Step.role first_step = "Manager")
     && Step.is_manager_approver first_step
  then User.manager_id current_user
  else
    match find_user_by_role USERS (User.company_id current_user)
                            (Step.role first_step) with
    | Some next_role_user => Some (User.id next_role_user)
    | None => None
    end.

Definition submit_expense (data : submit_request) (s : state) : state * outcome :=
  let employee_id := 3 in
  match get_current_user (USERS s) (Some employee_id) with
  | None => (s, message "Permission denied. Requires Employee role." 403)
  | Some current_user =>
    if negb (bool_decide (User.role current_user = "Employee"))
    then (s, message "Permission denied. Requires Employee role." 403)
    else
      match sr_amount data, sr_currency data, sr_category data,
            sr_description data, sr_date data with
      | Some amount, Some currency, Some category, Some description, Some date =>
        match Py.get (User.company_id current_user) (APPROVAL_RULES s) with
        | None =>
            (s, message "Approval flow not configured by Admin. Cannot submit." 500)
        | Some flow =>
          match Py.index (Flow.steps flow) 0 with
          | None => (s, Raises "IndexError")
          | Some first_step =>
            let first_approver_id :=
              first_step_approver (USERS s) current_user first_step in
            if negb (Py.truthy_int first_approver_id)
            then (s, message ("Cannot find an approver for the first step ("
                                ++ Step.role first_step ++ ").") 500)
            else
              let expense_id := NEXT_EXPENSE_ID s in
              let expense :=
                Expense.mk expense_id (User.id current_user) amount
                           (Py.upper currency) category description date
                           "Submitted" 1 first_approver_id [] in
              (mkState (COMPANIES s) (USERS s)
                       (Py.set expense_id expense (EXPENSES s))
                       (APPROVAL_RULES s) (NEXT_COMPANY_ID s) (NEXT_USER_ID s)
                       (NEXT_EXPENSE_ID s + 1),
               jsonify
                 [("message", JStr "Expense submitted successfully, initiating multi-step approval.");
                  ("expense_id", JInt expense_id);
                  ("next_approver_id", json_of_id first_approver_id)]
                 201)
          end
        end
      | _, _, _, _, _ => (s, message "Missing required expense field(s)." 400)
      end
  end.

(** ** 5. Pending listing and approve / reject *)

Definition APPROVER_ROLES : list string :=
  ["Admin"; "Manager"; "Finance"; "Director"].

(** The listing is the only caller of the currency conversion.  Python's
    [round(x, 2)] and the text an f-string gives a float are built-ins
    of the language, taken here as parameters. *)
#[local] Set Warnings "-inexact-float".

Section Listing.

Variable round2 : float → float.
Variable str_of_float : float → string.

Definition mock_currency_conversion (amount : float)
    (from_currency to_currency : string) : float :=
  if bool_decide (Py.upper from_currency = Py.upper to_currency)
  then amount
  else
    let mock_rate :=
      if bool_decide (Py.upper from_currency = "EUR")
         && bool_decide (Py.upper to_currency = "USD")
      then 1.08%float
      else if bool_decide (Py.upper from_currency = "GBP")
              && bool_decide (Py.upper to_currency = "USD")
      then 1.25%float
      else 1.05%float in
    round2 (PrimFloat.mul amount mock_rate).

(** The loop over [EXPENSES.values()]; [None] is the TypeError raised
    when the submitter of a pending expense is not in USERS. *)
Fixpoint pending_rows (USERS : Py.dict User.t) (approver_id : Z)
    (company_currency : string) (expenses : list Expense.t)
  : option (list json) :=
  match expenses with
  | [] => Some []
  | expense :: rest =>
    if bool_decide (Expense.current_approver_id expense = Some approver_id)
       && bool_decide (Expense.status expense = "Submitted")
    then
      let converted_amount :=
        mock_currency_conversion (Expense.amount expense)
          (Expense.currency expense) company_currency in
      match get_current_user USERS (Some (Expense.user_id expense)) with
      | None => None
      | Some submitter =>
        match pending_rows USERS approver_id company_currency rest with
        | None => None
        | Some rows =>
          Some (JObj
                  [("expense_id", JInt (Expense.id expense));
                   ("employee_email", JStr (User.email submitter));
                   ("amount_original",
                    JStr (str_of_float (Expense.amount expense) ++ " "
                            ++ Expense.currency expense));
                   ("amount_company_currency",
                    JStr (str_of_float converted_amount ++ " "
                            ++ company_currency));
                   ("description", JStr (Expense.description expense));
                   ("category", JStr (Expense.category expense))]
                :: rows)
        end
      end
    else pending_rows USERS approver_id company_currency rest
  end.

Definition view_pending_expenses (approver_id : Z) (s : state) : outcome :=
  match get_current_user (USERS s) (Some approver_id) with
  | None => message "Permission denied. Approver role required." 403
  | Some approver =>
    if negb (bool_decide (User.role approver ∈ APPROVER_ROLES))
    then message "Permission denied. Approver role required." 403
    else
      match Py.get (User.company_id approver) (COMPANIES s) with
      | None => Raises "KeyError"
      | Some company =>
        let company_currency := Company.currency company in
        match pending_rows (USERS s) approver_id company_currency
                           (Py.values (EXPENSES s)) with
        | None => Raises "TypeError"
        | Some pending_expenses =>
          jsonify
            [("message",
              JStr (pretty (Z.of_nat (length pending_expenses))
                      ++ " expense(s) pending your approval."));
             ("company_currency", JStr company_currency);
             ("pending_expenses", JList pending_expenses)]
            200
        end
      end
  end.

End Listing.

(** The JSON payload of the action route.  [action] is [None] when the
    key is missing: [action.capitalize()] then raises AttributeError. *)
Record action_request : Type := mkAction {
  approver_id : option Z;
  action : option string;
  comment : string
}.

(** The expense dictionary is mutated in place while it sits in
    EXPENSES: every change is a write under its key. *)
Definition store_expense (expense_id : Z) (expense : Expense.t) (s : state)
  : state :=
  mkState (COMPANIES s) (USERS s) (Py.set expense_id expense (EXPENSES s))
          (APPROVAL_RULES s) (NEXT_COMPANY_ID s) (NEXT_USER_ID s)
          (NEXT_EXPENSE_ID s).

Definition system_record (rule_message : option string) (now : string)
  : Approval.t :=
  Approval.mk BySystem "Auto-Approval Engine" "Approved"
              (default "None" rule_message) now.

(** Lines 382-409: the sequential flow, entered when no conditional rule
    fired.  [expense] already carries the new history entry. *)
Definition advance_to_next_step (expense_id : Z) (approver : User.t)
    (expense : Expense.t) (s : state) : state * outcome :=
  match Py.get (User.company_id approver) (APPROVAL_RULES s) with
  | None => (store_expense expense_id expense s, Raises "KeyError")
  | Some rules =>
    let flow := Flow.steps rules in
    let current_step_index := Expense.current_step expense - 1 in
    if decide (current_step_index + 1 < Z.of_nat (length flow))
    then
      let expense :=
        Expense.with_current_step (Expense.current_step expense + 1) expense in
      match Py.index flow (Expense.current_step expense - 1) with
      | None => (store_expense expense_id expense s, Raises "IndexError")
      | Some next_step =>
        match find_user_by_role (USERS s) (User.company_id approver)
                                (Step.role next_step) with
        | Some next_approver_user =>
          let expense :=
            Expense.with_current_approver_id
              (Some (User.id next_approver_user)) expense in
          (store_expense expense_id expense s,
           jsonify
             [("message", JStr "Expense approved. Routed to next approver.");
              ("next_approver_role", JStr (Step.role next_step));
              ("next_approver_id", JInt (User.id next_approver_user))]
             200)
        | None =>
          let expense :=
            Expense.with_current_approver_id None
              (Expense.with_status "Approval Halted" expense) in
          (store_expense expense_id expense s,
           message ("Expense approved, but could not find a user for role "
                      ++ Step.role next_step ++ ". Approval Halted.") 200)
        end
      end
    else
      let expense :=
        Expense.with_current_approver_id None
          (Expense.with_status "Approved" expense) in
      (store_expense expense_id expense s,
       message "Expense **Fully Approved**!" 200)
  end.

(** The handler.  [now1] and [now2] are what the first and the second
    call of [datetime.now().isoformat()] return, and [capitalize] is what
    [action.capitalize()] computes: Python's built-in, which maps the
    letters of every script.  When the evaluator raises, the entry
    appended to the history before the call stays in the claim. *)
Definition handle_approval_action_with (capitalize : string → string)
    (now1 now2 : string) (expense_id : Z) (data : action_request) (s : state)
  : state * outcome :=
  match get_current_user (USERS s) (approver_id data) with
  | None => (s, message "Permission denied. Invalid approver ID or role." 403)
  | Some approver =>
    if negb (bool_decide (User.role approver ∈ APPROVER_ROLES))
    then (s, message "Permission denied. Invalid approver ID or role." 403)
    else
      match Py.get expense_id (EXPENSES s) with
      | None => (s, message "Expense not found." 404)
      | Some expense =>
        if negb (bool_decide (Expense.current_approver_id expense
                              = Some (User.id approver)))
        then (s, message "You are not the current designated approver for this expense." 403)
        else
          match action data with
          | None => (s, Raises "AttributeError")
          | Some action =>
            let expense :=
              Expense.with_history
                (Expense.approvals_history expense
                   ++ [Approval.mk (ById (User.id approver)) (User.role approver)
                                   (capitalize action) (comment data) now1])
                expense in
            if bool_decide (action = "reject")
            then
              let expense :=
                Expense.with_current_approver_id None
                  (Expense.with_status "Rejected" expense) in
              (store_expense expense_id expense s,
               message "Expense claim **Rejected**." 200)
            else
              match apply_conditional_rules (APPROVAL_RULES s)
                      (User.company_id approver)
                      (Expense.approvals_history expense) with
              | Py.Raise exn => (store_expense expense_id expense s, Raises exn)
              | Py.Return (true, rule_message) =>
                let expense :=
                  Expense.with_current_approver_id None
                    (Expense.with_status "Approved" expense) in
                let expense :=
                  Expense.with_history
                    (Expense.approvals_history expense
                       ++ [system_record rule_message now2])
                    expense in
                (store_expense expense_id expense s,
                 message ("Expense **AUTO-APPROVED**! "
                            ++ default "None" rule_message) 200)
              | Py.Return (false, _) =>
                advance_to_next_step expense_id approver expense s
              end
          end
      end
  end.

(** The handler on ASCII action strings, for which [action.capitalize()]
    is [Py.capitalize]. *)
Definition handle_approval_action (now1 now2 : string) (expense_id : Z)
    (data : action_request) (s : state) : state * outcome :=
  handle_approval_action_with Py.capitalize now1 now2 expense_id data s.

(** ** The [__main__] block: the demo users and flow written straight
    into the dictionaries, after [create_initial_company_and_admin]. *)

Definition add_user (email role : string) (manager_id : option Z) (company_id : Z)
    (s : state) : state :=
  mkState (COMPANIES s)
          (Py.set (NEXT_USER_ID s)
                  (User.mk (NEXT_USER_ID s) company_id email role manager_id)
                  (USERS s))
          (EXPENSES s) (APPROVAL_RULES s) (NEXT_COMPANY_ID s)
          (NEXT_USER_ID s + 1) (NEXT_EXPENSE_ID s).

Definition main_flow : Flow.t :=
  Flow.mk [Step.mk "Manager" true; Step.mk "Finance" false;
           Step.mk "Director" false]
          (Rule.mk (Some "Specific") (Some "Director") (Some 100) None).

Definition main_state : state :=
  let '(s, admin_user) :=
    create_initial_company_and_admin "admin@company.com" initial_state in
  let company_id := User.company_id admin_user in
  let manager_id := NEXT_USER_ID s in
  let s := add_user "manager@company.com" "Manager" (Some 1) company_id s in
  let s := add_user "employee@company.com" "Employee" (Some manager_id) company_id s in
  let s := add_user "finance@company.com" "Finance" (Some 1) company_id s in
  let s := add_user "director@company.com" "Director" (Some 1) company_id s in
  mkState (COMPANIES s) (USERS s) (EXPENSES s)
          (Py.set company_id main_flow (APPROVAL_RULES s))
          (NEXT_COMPANY_ID s) (NEXT_USER_ID s) (NEXT_EXPENSE_ID s).

(** ** The server as a state machine

    The routes that write to the dictionaries.  The pending listing only
    reads them. *)

Inductive request : Type :=
| Signup (user_email : string)
| ManageUser (data : manage_user_request)
| ConfigureApprovalFlow (data : approval_flow_request)
| SubmitExpense (data : submit_request)
| ApprovalAction (now1 now2 : string) (expense_id : Z) (data : action_request).

Definition handle (r : request) (s : state) : state * outcome :=
  match r with
  | Signup user_email => signup user_email s
  | ManageUser data => manage_user data s
  | ConfigureApprovalFlow data => configure_approval_flow data s
  | SubmitExpense data => submit_expense data s
  | ApprovalAction now1 now2 expense_id data =>
      handle_approval_action now1 now2 expense_id data s
  end.

Definition run (rs : list request) (s : state) : state :=
  foldl (λ s r, fst (handle r s)) s rs.

(** States the server can be in: it starts from the empty dictionaries
    (the [__main__] block only adds what the routes could have added,
    see [main_state_reachable]) and serves one request after the other. *)
Inductive reachable : state → Prop :=
| reachable_initial : reachable initial_state
| reachable_handle s r : reachable s → reachable (fst (handle r s)).

Definition terminal (status : string) : Prop :=
  status ∈ ["Approved"; "Rejected"; "Approval Halted"].

(** A request succeeded when the handler returned with HTTP status 200. *)
Definition succeeded (o : outcome) : Prop := status_code o = 200.

(** ** Invariants of the claims *)

(** The current approver is set exactly while the claim is 'Submitted'. *)
Definition claim_ok (e : Expense.t) : Prop :=
  is_Some (Expense.current_approver_id e) ↔ Expense.status e = "Submitted".

(** Every stored claim is well formed and was numbered by the counter. *)
Definition claims_ok (s : state) : Prop :=
  ∀ k e, (k, e) ∈ EXPENSES s → claim_ok e ∧ k < NEXT_EXPENSE_ID s.

(** ** The evaluator as the specification words it *)

Module Spec.

(** "any history entry has that role with decision Approved" *)
Definition approved_by (r : string) (history : list Approval.t) : Prop :=
  Exists (λ a, Approval.role a = r ∧ Approval.status a = "Approved") history.

(** "the set of distinct roles appearing in the workflow's step list" *)
Definition workflow_roles (steps : list Step.t) : gset string :=
  list_to_set (Step.role <$> steps).

(** "the set of distinct roles (restricted to workflow-roles) that have
    at least one Approved entry in history" *)
Definition approved_roles (steps : list Step.t) (history : list Approval.t)
  : gset string :=
  filter (λ r, approved_by r history) (workflow_roles steps).

Definition specific_satisfied (r : string) (history : list Approval.t) : Prop :=
  approved_by r history.

(** "workflow-roles is non-empty and
    |approved-roles| / |workflow-roles| ≥ threshold/100" *)
Definition percentage_satisfied (threshold : Z) (history : list Approval.t)
    (steps : list Step.t) : Prop :=
  workflow_roles steps ≠ ∅ ∧
  (inject_Z threshold / 100
   <= inject_Z (Z.of_nat (size (approved_roles steps history)))
      / inject_Z (Z.of_nat (size (workflow_roles steps))))%Q.

End Spec.

(** ** Runs that differ in the money fields of one claim *)

Definition with_money (amount : float) (currency : string) (e : Expense.t)
  : Expense.t :=
  Expense.mk (Expense.id e) (Expense.user_id e) amount currency
             (Expense.category e) (Expense.description e) (Expense.date e)
             (Expense.status e) (Expense.current_step e)
             (Expense.current_approver_id e) (Expense.approvals_history e).

(** Rewrite the values of a dictionary, keys and order kept. *)
Definition map_values {V W} (g : Z → V → W) (d : Py.dict V) : Py.dict W :=
  (λ kv, (kv.1, g kv.1 kv.2)) <$> d.

Definition money_at (expense_id : Z) (amount : float) (currency : string)
    (k : Z) (e : Expense.t) : Expense.t :=
  if decide (k = expense_id) then with_money amount currency e else e.

(** The state in which claim [expense_id] was submitted with another
    amount and currency, everything else being equal. *)
Definition change_money (expense_id : Z) (amount : float) (currency : string)
    (s : state) : state :=
  mkState (COMPANIES s) (USERS s)
          (map_values (money_at expense_id amount currency) (EXPENSES s))
          (APPROVAL_RULES s) (NEXT_COMPANY_ID s) (NEXT_USER_ID s)
          (NEXT_EXPENSE_ID s).

(** The fields of a claim that the engine decides on. *)
Definition decision_fields (e : Expense.t)
  : string * Z * option Z * list Approval.t :=
  (Expense.status e, Expense.current_step e, Expense.current_approver_id e,
   Expense.approvals_history e).

(** What the evaluator answers on the history of claim [k]. *)
Definition evaluation (company_id k : Z) (s : state)
  : option (Py.result (bool * option string)) :=
  (λ e, apply_conditional_rules (APPROVAL_RULES s) company_id
                                (Expense.approvals_history e))
    <$> Py.get k (EXPENSES s).

(** ** Flows that differ in the manager flags of their steps *)




(** ** Concrete runs on the demo data of the [__main__] block *)

Definition main_requests : list request :=
  [Signup "admin@company.com";
   ManageUser (mkManageUser "manager@company.com" "Manager" (Some 1));
   ManageUser (mkManageUser "employee@company.com" "Employee" (Some 2));
   ManageUser (mkManageUser "finance@company.com" "Finance" (Some 1));
   ManageUser (mkManageUser "director@company.com" "Director" (Some 1));
   ConfigureApprovalFlow
     (mkApprovalFlow (Some (Flow.steps main_flow))
                     (Some (Flow.conditional main_flow)))].

Definition demo_employee : User.t :=
  User.mk 3 1 "employee@company.com" "Employee" (Some 2).

Definition demo_submit : submit_request :=
  mkSubmit (Some 100%float) (Some "eur") (Some "Travel") (Some "Taxi")
           (Some "2024-01-01").

Definition act_as (uid : Z) (action : string) : action_request :=
  mkAction (Some uid) (Some action) "".

(** Scenario A up to the Director's turn: submit, then the Manager (2)
    and the Finance member (4) send [action]. *)
Definition scenario_A_before_director (action : string) : state :=
  run [SubmitExpense demo_submit;
       ApprovalAction "t1" "t2" 1 (act_as 2 action);
       ApprovalAction "t3" "t4" 1 (act_as 4 action)]
      main_state.

(** The demo company with another flow. *)
Definition with_flow (steps : list Step.t) (rule : Rule.t) : state :=
  fst (configure_approval_flow (mkApprovalFlow (Some steps) (Some rule))
                               main_state).

(** Two Finance steps in a row and no conditional rule, one claim
    submitted. *)
Definition twice_finance_state : state :=
  fst (submit_expense demo_submit
         (with_flow [Step.mk "Finance" false; Step.mk "Finance" false]
                    Rule.empty)).

(** A flagged second step with role Finance, one claim submitted. *)
Definition flagged_second_step_state : state :=
  fst (submit_expense demo_submit
         (with_flow [Step.mk "Manager" true; Step.mk "Finance" true]
                    Rule.empty)).

(** ** Inputs of the evaluator used as examples *)

(** [a / n >= t / 100.0] as [percentage_met] computes it. *)
Definition float_ratio_ge (a n : nat) (t : Z) : Py.result bool :=
  match Py.float_of_int t with
  | None => Py.Raise "OverflowError"
  | Some x =>
    match Py.truediv (Z.of_nat a) (Z.of_nat n) with
    | Py.Return ratio =>
        Py.Return (Py.float_ge ratio (PrimFloat.div x 100%float))
    | Py.Raise exn => Py.Raise exn
    end
  end.

Definition finance_only : list Step.t := [Step.mk "Finance" false].
Definition director_only : list Step.t := [Step.mk "Director" false].

(** A Percentage rule with threshold 0, and a Hybrid rule with threshold 0. *)
Definition percentage_zero : Py.dict Flow.t :=
  [(1, Flow.mk finance_only (Rule.mk (Some "Percentage") None (Some 0) None))].
Definition hybrid_zero : Py.dict Flow.t :=
  [(1, Flow.mk director_only
               (Rule.mk (Some "Hybrid") None (Some 0) (Some "Director")))].

(** A Percentage rule and a Hybrid rule with threshold 50 over two steps. *)
Definition finance_director : list Step.t :=
  [Step.mk "Finance" false; Step.mk "Director" false].
Definition percentage_fifty : Py.dict Flow.t :=
  [(1, Flow.mk finance_director
               (Rule.mk (Some "Percentage") None (Some 50) None))].
Definition hybrid_fifty : Py.dict Flow.t :=
  [(1, Flow.mk finance_director
               (Rule.mk (Some "Hybrid") None (Some 50) (Some "Director")))].

Definition director_approved : list Approval.t :=
  [Approval.mk (ById 5) "Director" "Approved" "" "t1"].

(** Scenario A run to its end with the action 'approve'. *)
Definition scenario_A_done : state :=
  run [ApprovalAction "t5" "t6" 1 (act_as 5 "approve")]
      (scenario_A_before_director "approve").

Definition scenario_A_claim : Expense.t :=
  Expense.mk 1 3 100%float "EUR" "Travel" "Taxi" "2024-01-01" "Approved" 3 None
    [Approval.mk (ById 2) "Manager" "Approve" "" "t1";
     Approval.mk (ById 4) "Finance" "Approve" "" "t3";
     Approval.mk (ById 5) "Director" "Approve" "" "t5"].

(** Scenario A after the submission, and after the Manager's 'approve'. *)
Definition scenario_A_submitted : state :=
  fst (submit_expense demo_submit main_state).
Definition scenario_A_after_manager : state :=
  fst (handle_approval_action "t1" "t2" 1 (act_as 2 "approve")
                              scenario_A_submitted).

(** The claim of [twice_finance_state] after one 'approve' of the
    Finance member (4). *)
Definition twice_finance_once : state :=
  fst (handle_approval_action "t1" "t2" 1 (act_as 4 "approve")
                              twice_finance_state).

Definition demo_manager : User.t :=
  User.mk 2 1 "manager@company.com" "Manager" (Some 1).

(** The claim of scenario A as the submission stores it. *)
Definition scenario_A_new_claim : Expense.t :=
  Expense.mk 1 3 100%float "EUR" "Travel" "Taxi" "2024-01-01" "Submitted" 1
             (Some 2) [].

(** ** Well-formed states

    What the routes keep true of the four dictionaries and the counters. *)

(** A user stored under key [k], the user counter being [n]. *)
Definition user_ok (n k : Z) (u : User.t) : Prop :=
  User.id u = k ∧ 1 ≤ k < n ∧ User.role u ∈ ROLES ∧ User.company_id u = 1.

(** A manager reference that is not None or 0 names a stored user whose
    role is Manager or Admin. *)
Definition manager_ok (USERS : Py.dict User.t) (u : User.t) : Prop :=
  ∀ m, User.manager_id u = Some m → m ≠ 0 →
       ∃ mu, Py.get m USERS = Some mu ∧ User.role mu ∈ ["Manager"; "Admin"].

(** A claim stored under key [k], the claim counter being [n]: every
    step passed left at least one entry in the history. *)
Definition expense_ok (n k : Z) (e : Expense.t) : Prop :=
  Expense.id e = k ∧ Expense.user_id e = 3 ∧ 1 ≤ k < n
  ∧ 1 ≤ Expense.current_step e
  ∧ Expense.current_step e - 1
    ≤ Z.of_nat (length (Expense.approvals_history e)).

Definition default_company : Company.t :=
  Company.mk 1 "Default Company 1" DEFAULT_ENV_CURRENCY.

Record wf (s : state) : Prop := mkWf {
  wf_users : ∀ k u, (k, u) ∈ USERS s → user_ok (NEXT_USER_ID s) k u;
  wf_sorted : StronglySorted Z.lt ((USERS s).*1);
  wf_managers : ∀ k u, (k, u) ∈ USERS s → manager_ok (USERS s) u;
  wf_fresh : USERS s = [] → s = initial_state;
  wf_admin : USERS s ≠ [] →
             ∃ a, Py.get 1 (USERS s) = Some a ∧ User.role a = "Admin";
  wf_company : USERS s ≠ [] → COMPANIES s = [(1, default_company)];
  wf_rules : ∀ c flow, (c, flow) ∈ APPROVAL_RULES s →
                       c = 1 ∧ valid_roles (Flow.steps flow) = true;
  wf_counter : 1 ≤ NEXT_EXPENSE_ID s;
  wf_expenses : ∀ k e, (k, e) ∈ EXPENSES s →
                       expense_ok (NEXT_EXPENSE_ID s) k e;
  wf_claims_sorted : StronglySorted Z.lt ((EXPENSES s).*1);
  wf_needs : EXPENSES s ≠ [] →
             is_Some (Py.get 1 (APPROVAL_RULES s))
             ∧ is_Some (Py.get 3 (USERS s))
}.


(** The fields of a claim written at submission. *)
Definition submitted_fields (e : Expense.t)
  : Z * Z * float * string * string * string * string :=
  (Expense.id e, Expense.user_id e, Expense.amount e, Expense.currency e,
   Expense.category e, Expense.description e, Expense.date e).

(** The demo company with a single Employee step, one claim submitted:
    the claim waits for the Employee (3). *)
Definition employee_step_state : state :=
  fst (submit_expense demo_submit
         (with_flow [Step.mk "Employee" false] Rule.empty)).

Definition employee_step_claim : Expense.t :=
  Expense.mk 1 3 100%float "EUR" "Travel" "Taxi" "2024-01-01" "Submitted" 1
             (Some 3) [].


(** A threshold beyond the binary64 range, and the demo company with a
    Percentage rule of that threshold, one claim submitted. *)
Definition huge_threshold : Z := 2 ^ 1024.

Definition overflow_state : state :=
  fst (submit_expense demo_submit
         (with_flow (Flow.steps main_flow)
                    (Rule.mk (Some "Percentage") None (Some huge_threshold)
                             None))).

(** * Verification *)

(** ** Dictionaries *)

Section Dict.
Context {V : Type}.
Implicit Types (d : Py.dict V) (k : Z) (v : V).

Lemma get_set_eq k v d : Py.get k (Py.set k v d) = Some v.
Proof.
  induction d as [|[k' v'] d IH]; simpl.
  - by rewrite decide_True.
  - destruct (decide (k = k')) as [->|Hne]; simpl.
    + by rewrite decide_True.
    + by rewrite decide_False.
Qed.

Lemma get_set_ne k k' v d : k ≠ k' → Py.get k' (Py.set k v d) = Py.get k' d.
Proof.
  intros Hne. induction d as [|[k0 v0] d IH]; simpl.
  - by rewrite decide_False.
  - destruct (decide (k = k0)) as [->|Hk]; simpl.
    + by rewrite !decide_False.
    + by rewrite IH.
Qed.

Lemma get_Some_elem_of k v d : Py.get k d = Some v → (k, v) ∈ d.
Proof.
  induction d as [|[k' v'] d IH]; simpl; [done|].
  destruct (decide (k = k')) as [->|Hne].
  - intros [= ->]. apply list_elem_of_here.
  - intros H. apply list_elem_of_further. auto.
Qed.

Lemma elem_of_get k v d : (k, v) ∈ d → is_Some (Py.get k d).
Proof.
  induction d as [|[k' v'] d IH]; simpl.
  - by intros ?%not_elem_of_nil.
  - intros [[= <- <-]|Hin]%elem_of_cons.
    + rewrite decide_True; eauto.
    + destruct (decide (k = k')); eauto.
Qed.

Lemma elem_of_set k v d (x : Z * V) :
  x ∈ Py.set k v d → x = (k, v) ∨ x ∈ d.
Proof.
  induction d as [|[k' v'] d IH]; simpl.
  - intros ->%list_elem_of_singleton. by left.
  - destruct (decide (k = k')) as [->|Hne].
    + intros [->|Hin]%elem_of_cons; [by left|].
      right. by apply list_elem_of_further.
    + intros [->|Hin]%elem_of_cons.
      * right. apply list_elem_of_here.
      * destruct (IH Hin) as [->|?]; [by left|].
        right. by apply list_elem_of_further.
Qed.

End Dict.

(** ** The evaluator against the specification's wording *)

Lemma specific_approved_spec r history :
  specific_approved r history = true ↔ Spec.approved_by r history.
Proof.
  unfold specific_approved, Spec.approved_by.
  rewrite existsb_exists, Exists_exists. split.
  - intros (a & Hin & Ha). exists a. rewrite list_elem_of_In.
    apply andb_true_iff in Ha as [?%bool_decide_eq_true ?%bool_decide_eq_true].
    done.
  - intros (a & Hin & Hr & Hs). exists a. rewrite <- list_elem_of_In.
    split; [done|]. by rewrite !bool_decide_eq_true_2.
Qed.

Lemma approved_roles_spec steps history :
  approved_roles (flow_roles_of steps) history = Spec.approved_roles steps history.
Proof.
  apply set_eq. intros r.
  unfold approved_roles, Spec.approved_roles, Spec.workflow_roles, flow_roles_of.
  rewrite elem_of_list_to_set, list_elem_of_fmap, elem_of_filter.
  unfold Spec.approved_by. rewrite Exists_exists. split.
  - intros (a & -> & [[Hs Hw] Hin]%list_elem_of_filter). eauto.
  - intros [(a & Hin & <- & Hs) Hw]. exists a. split; [done|].
    by apply list_elem_of_filter.
Qed.

Lemma approved_roles_subseteq steps history :
  Spec.approved_roles steps history ⊆ Spec.workflow_roles steps.
Proof. unfold Spec.approved_roles. by intros r [_ ?]%elem_of_filter. Qed.

Lemma valid_roles_size steps :
  valid_roles steps = true → (size (Spec.workflow_roles steps) ≤ 5)%nat.
Proof.
  intros Hv.
  change 5%nat with (size (list_to_set ROLES : gset string)).
  apply subseteq_size. intros r.
  unfold Spec.workflow_roles.
  rewrite !elem_of_list_to_set, list_elem_of_fmap.
  intros (st & -> & Hin).
  unfold valid_roles in Hv. rewrite forallb_forall in Hv.
  apply list_elem_of_In, Hv in Hin. by apply bool_decide_eq_true in Hin.
Qed.

(** The binary64 comparison agrees with the exact one on every input the
    evaluator can meet: at most five distinct roles, a threshold from 0
    to 100. *)
Lemma float_ratio_table :
  forallb (λ t, forallb (λ n, forallb (λ a,
    match float_ratio_ge a n t with
    | Py.Return b =>
        Bool.eqb b (bool_decide (t * Z.of_nat n ≤ 100 * Z.of_nat a))
    | Py.Raise _ => false
    end)
    (seq 0 6)) (seq 1 5)) (seqZ 0 101) = true.
Proof. vm_compute. reflexivity. Qed.

Lemma float_ratio_exact (a n : nat) t :
  0 ≤ t ≤ 100 → (1 ≤ n ≤ 5)%nat → (a ≤ 5)%nat →
  float_ratio_ge a n t
  = Py.Return (bool_decide (t * Z.of_nat n ≤ 100 * Z.of_nat a)).
Proof.
  intros Ht Hn Ha.
  pose proof float_ratio_table as H.
  rewrite forallb_forall in H.
  specialize (H t). rewrite <- list_elem_of_In, elem_of_seqZ in H.
  specialize (H ltac:(lia)). rewrite forallb_forall in H.
  specialize (H n). rewrite <- list_elem_of_In, elem_of_seq in H.
  specialize (H ltac:(lia)). rewrite forallb_forall in H.
  specialize (H a). rewrite <- list_elem_of_In, elem_of_seq in H.
  specialize (H ltac:(lia)).
  destruct (float_ratio_ge a n t) as [b|exn]; [|done].
  by apply eqb_prop in H as ->.
Qed.

Lemma ratio_ge_iff (t a w : Z) :
  0 < w → (inject_Z t / 100 <= inject_Z a / inject_Z w)%Q ↔ t * w ≤ 100 * a.
Proof.
  intros Hw. destruct w as [|p|p]; try lia.
  unfold Qle, Qdiv, Qmult, Qinv, inject_Z; cbn [Qnum Qden Pos.mul].
  rewrite !Z.mul_1_r, !Pos.mul_1_l. lia.
Qed.

(** For a threshold from 0 to 100 the check raises nothing, and its
    answer is the exact comparison of the two fractions. *)
Lemma percentage_met_spec steps history t :
  0 ≤ t ≤ 100 → valid_roles steps = true →
  ∃ b, percentage_met (flow_roles_of steps) history t = Py.Return b
       ∧ (b = true ↔ Spec.percentage_satisfied t history steps).
Proof.
  intros Ht Hv. unfold percentage_met, Spec.percentage_satisfied.
  rewrite approved_roles_spec.
  change (flow_roles_of steps) with (Spec.workflow_roles steps).
  pose proof (valid_roles_size steps Hv) as Hn.
  pose proof (subseteq_size _ _ (approved_roles_subseteq steps history)) as Ha.
  set (W := Spec.workflow_roles steps) in *.
  set (A := Spec.approved_roles steps history) in *.
  assert (HW : W ≠ ∅ ↔ (0 < size W)%nat).
  { split.
    - intros Hne. destruct (size W) eqn:E; [|lia].
      by apply size_empty_iff, leibniz_equiv in E.
    - intros Hpos ->. rewrite size_empty in Hpos. lia. }
  destruct (decide (0 < size W)%nat) as [Hpos|Hzero].
  - pose proof (float_ratio_exact (size A) (size W) t Ht ltac:(lia) ltac:(lia))
      as Hexact.
    unfold float_ratio_ge in Hexact.
    destruct (Py.float_of_int t) as [x|]; [|done].
    rewrite (bool_decide_eq_true_2 _ Hpos).
    destruct (Py.truediv _ _) as [ratio|exn]; [|done].
    injection Hexact as Hexact. eexists. split; [done|].
    rewrite HW, Hexact, bool_decide_eq_true.
    rewrite ratio_ge_iff by lia. tauto.
  - assert (Hfloat : is_Some (Py.float_of_int t)).
    { pose proof (float_ratio_exact 0 1 t Ht ltac:(lia) ltac:(lia)) as Hexact.
      unfold float_ratio_ge in Hexact.
      by destruct (Py.float_of_int t); [eexists|]. }
    destruct Hfloat as [x ->]. rewrite (bool_decide_eq_false_2 _ Hzero).
    eexists. split; [done|]. rewrite HW. split; [done|tauto].
Qed.

(** What the evaluator returns for a rule of type 'Percentage'. *)
Lemma apply_percentage_rule rules company steps rule history :
  Py.get company rules = Some (Flow.mk steps rule) →
  Rule.type rule = Some "Percentage" →
  apply_conditional_rules rules company history
  = if Py.truthy_int (Rule.threshold rule)
    then
      match percentage_met (flow_roles_of steps) history
                           (default 0 (Rule.threshold rule)) with
      | Py.Raise exn => Py.Raise exn
      | Py.Return true =>
          Py.Return
            (true, Some (percentage_message (default 0 (Rule.threshold rule))))
      | Py.Return false => Py.Return (false, None)
      end
    else Py.Return (false, None).
Proof.
  intros Hget Hty. unfold apply_conditional_rules. rewrite Hget. simpl.
  unfold specific_block, percentage_block, hybrid_block. rewrite Hty.
  rewrite (bool_decide_eq_false_2 (Some "Percentage" = Some "Specific")) by done.
  rewrite (bool_decide_eq_true_2 (Some "Percentage" = Some "Percentage")) by done.
  rewrite (bool_decide_eq_false_2 (Some "Percentage" = Some "Hybrid")) by done.
  simpl. destruct (Py.truthy_int _); simpl; [|done].
  by destruct (percentage_met _ _ _) as [[]|].
Qed.

(** What the evaluator returns for a rule of type 'Hybrid'. *)
Lemma apply_hybrid_rule rules company steps rule history :
  Py.get company rules = Some (Flow.mk steps rule) →
  Rule.type rule = Some "Hybrid" →
  apply_conditional_rules rules company history
  = if Py.truthy_str (Rule.specific_role rule)
       && Py.truthy_int (Rule.threshold rule)
    then
      if specific_approved (default "" (Rule.specific_role rule)) history
      then Py.Return (true, Some (hybrid_specific_message
                                    (default "" (Rule.specific_role rule))))
      else
        match percentage_met (flow_roles_of steps) history
                             (default 0 (Rule.threshold rule)) with
        | Py.Raise exn => Py.Raise exn
        | Py.Return true =>
            Py.Return (true, Some (hybrid_percentage_message
                                     (default 0 (Rule.threshold rule))))
        | Py.Return false => Py.Return (false, None)
        end
    else Py.Return (false, None).
Proof.
  intros Hget Hty. unfold apply_conditional_rules. rewrite Hget. simpl.
  unfold specific_block, percentage_block, hybrid_block. rewrite Hty.
  rewrite (bool_decide_eq_false_2 (Some "Hybrid" = Some "Specific")) by done.
  rewrite (bool_decide_eq_false_2 (Some "Hybrid" = Some "Percentage")) by done.
  rewrite (bool_decide_eq_true_2 (Some "Hybrid" = Some "Hybrid")) by done.
  simpl. destruct (Py.truthy_str _), (Py.truthy_int _); simpl; try done.
  destruct (specific_approved _ _); [done|].
  by destruct (percentage_met _ _ _) as [[]|].
Qed.

(** An entry that is not Approved, or whose role already has an Approved
    entry, changes neither check. *)
Lemma approved_by_snoc r history a :
  Approval.status a ≠ "Approved" ∨ Spec.approved_by (Approval.role a) history →
  Spec.approved_by r (history ++ [a]) ↔ Spec.approved_by r history.
Proof.
  intros Ha. unfold Spec.approved_by in *.
  rewrite Exists_app, Exists_cons, Exists_nil. split; [|tauto].
  intros [?|[[<- Hs]|[]]]; [done|]. by destruct Ha.
Qed.

Lemma specific_approved_snoc r history a :
  Approval.status a ≠ "Approved" ∨ Spec.approved_by (Approval.role a) history →
  specific_approved r (history ++ [a]) = specific_approved r history.
Proof.
  intros Ha. apply eq_true_iff_eq.
  rewrite !specific_approved_spec. by apply approved_by_snoc.
Qed.

Lemma percentage_met_snoc steps history a t :
  Approval.status a ≠ "Approved" ∨ Spec.approved_by (Approval.role a) history →
  percentage_met (flow_roles_of steps) (history ++ [a]) t
  = percentage_met (flow_roles_of steps) history t.
Proof.
  intros Ha. unfold percentage_met. rewrite !approved_roles_spec.
  replace (Spec.approved_roles steps (history ++ [a]))
    with (Spec.approved_roles steps history); [done|].
  apply set_eq. intros r. unfold Spec.approved_roles.
  rewrite !elem_of_filter. by rewrite approved_by_snoc.
Qed.

(** C2, as stated, fails at threshold 0: one workflow role and an empty
    history give 0/1 >= 0/100, yet the evaluator skips a Percentage rule
    whose threshold is 0 and answers not satisfied. *)
Lemma percentage_threshold_zero_not_satisfied :
  Spec.percentage_satisfied 0 [] finance_only
  ∧ apply_conditional_rules percentage_zero 1 [] = Py.Return (false, None).
Proof.
  split; [|reflexivity]. split.
  - intros H. assert (Hin : "Finance" ∈ Spec.workflow_roles finance_only).
    { apply elem_of_list_to_set. apply list_elem_of_here. }
    rewrite H in Hin. by apply not_elem_of_empty in Hin.
  - apply ratio_ge_iff; [by vm_compute|]. by vm_compute.
Qed.

(** C2 (amended): for a Percentage rule whose threshold is an integer
    from 1 to 100, over a step list made of the five known roles, the
    evaluator answers satisfied exactly when the set of distinct workflow
    roles is non-empty and |approved roles| / |workflow roles| >=
    threshold / 100, where the approved roles are the workflow roles with
    at least one Approved entry; an entry that is not Approved (a
    rejection), or whose role already has an Approved entry, changes
    nothing. *)
Theorem percentage_rule_satisfied_iff rules company steps rule t history :
  Py.get company rules = Some (Flow.mk steps rule) →
  Rule.type rule = Some "Percentage" →
  Rule.threshold rule = Some t →
  1 ≤ t ≤ 100 →
  valid_roles steps = true →
  (∃ result,
     apply_conditional_rules rules company history = Py.Return result
     ∧ (fst result = true ↔ Spec.percentage_satisfied t history steps))
  ∧ (∀ a, Approval.status a ≠ "Approved"
          ∨ Spec.approved_by (Approval.role a) history →
          apply_conditional_rules rules company (history ++ [a])
          = apply_conditional_rules rules company history).
Proof.
  intros Hget Hty Hthr Ht Hv. split.
  - rewrite (apply_percentage_rule _ _ _ _ _ Hget Hty), Hthr. simpl.
    rewrite bool_decide_eq_false_2 by lia. simpl.
    destruct (percentage_met_spec steps history t) as (b & -> & Hb);
      [lia|done|].
    destruct b; (eexists; split; [done|]); simpl; by rewrite <- Hb.
  - intros a Ha.
    rewrite !(apply_percentage_rule _ _ _ _ _ Hget Hty).
    by rewrite percentage_met_snoc.
Qed.

Lemma percentage_rule_satisfied_iff_witness :
  ∃ result,
    apply_conditional_rules percentage_fifty 1 director_approved
    = Py.Return result
    ∧ (fst result = true
       ↔ Spec.percentage_satisfied 50 director_approved finance_director).
Proof.
  apply (percentage_rule_satisfied_iff percentage_fifty 1 finance_director
           (Rule.mk (Some "Percentage") None (Some 50) None) 50
           director_approved);
    [reflexivity | reflexivity | reflexivity | lia | reflexivity].
Defined.

(** C3, as stated, fails at threshold 0: the Director has approved, so the
    Specific check holds, yet the evaluator skips the whole Hybrid rule
    when its threshold is 0. *)
Lemma hybrid_threshold_zero_not_satisfied :
  Spec.specific_satisfied "Director" director_approved
  ∧ apply_conditional_rules hybrid_zero 1 director_approved
    = Py.Return (false, None).
Proof.
  split; [|reflexivity]. apply Exists_cons_hd. done.
Qed.

(** C3 (amended): for a Hybrid rule with a non-empty specific role and an
    integer threshold from 1 to 100, over a step list made of the five
    known roles, the evaluator answers satisfied exactly when the Specific
    check on the role or the Percentage check on the threshold holds; the
    Specific check comes first, so its message is the reason whenever it
    holds, and the Percentage message is the reason otherwise. *)
Theorem hybrid_rule_satisfied_iff rules company steps rule sr t history :
  Py.get company rules = Some (Flow.mk steps rule) →
  Rule.type rule = Some "Hybrid" →
  Rule.specific_role rule = Some sr → sr ≠ "" →
  Rule.threshold rule = Some t → 1 ≤ t ≤ 100 →
  valid_roles steps = true →
  ∃ result,
    apply_conditional_rules rules company history = Py.Return result
    ∧ (fst result = true
       ↔ Spec.specific_satisfied sr history
         ∨ Spec.percentage_satisfied t history steps)
    ∧ (Spec.specific_satisfied sr history →
       snd result = Some (hybrid_specific_message sr))
    ∧ (¬ Spec.specific_satisfied sr history →
       Spec.percentage_satisfied t history steps →
       snd result = Some (hybrid_percentage_message t)).
Proof.
  intros Hget Hty Hsr Hne Hthr Ht Hv.
  rewrite (apply_hybrid_rule _ _ _ _ _ Hget Hty), Hsr, Hthr. simpl.
  rewrite (bool_decide_eq_false_2 (sr = "")) by done.
  rewrite (bool_decide_eq_false_2 (t = 0)) by lia. simpl.
  unfold Spec.specific_satisfied.
  pose proof (specific_approved_spec sr history) as Hs.
  destruct (percentage_met_spec steps history t) as (b & -> & Hb);
    [lia|done|].
  destruct (specific_approved sr history), b;
    (eexists; split; [done|]); simpl; rewrite <- Hs, <- Hb;
    intuition congruence.
Qed.

Lemma hybrid_rule_satisfied_iff_witness :
  ∃ result,
    apply_conditional_rules hybrid_fifty 1 director_approved = Py.Return result
    ∧ (fst result = true
       ↔ Spec.specific_satisfied "Director" director_approved
         ∨ Spec.percentage_satisfied 50 director_approved finance_director)
    ∧ (Spec.specific_satisfied "Director" director_approved →
       snd result = Some (hybrid_specific_message "Director"))
    ∧ (¬ Spec.specific_satisfied "Director" director_approved →
       Spec.percentage_satisfied 50 director_approved finance_director →
       snd result = Some (hybrid_percentage_message 50)).
Proof.
  apply (hybrid_rule_satisfied_iff hybrid_fifty 1 finance_director
           (Rule.mk (Some "Hybrid") None (Some 50) (Some "Director"))
           "Director" 50 director_approved);
    [reflexivity | reflexivity | reflexivity | discriminate | reflexivity
    | lia | reflexivity].
Defined.

(** ** Scenario A on the demo data *)

(** The [__main__] block leaves the dictionaries as the routes would. *)
Lemma main_state_run : run main_requests initial_state = main_state.
Proof. reflexivity. Qed.

Lemma run_reachable rs s : reachable s → reachable (run rs s).
Proof.
  revert s. induction rs as [|r rs IH]; intros s Hs; simpl; [done|].
  apply IH. by constructor.
Qed.

Lemma main_state_reachable : reachable main_state.
Proof. rewrite <- main_state_run. apply run_reachable. constructor. Qed.

(** The other configurations used below are reachable as well: one more
    configuration request, then a submission. *)
Lemma with_flow_submitted_reachable steps rule :
  reachable (fst (submit_expense demo_submit (with_flow steps rule))).
Proof.
  apply (reachable_handle _ (SubmitExpense demo_submit)).
  apply (reachable_handle _ (ConfigureApprovalFlow
                               (mkApprovalFlow (Some steps) (Some rule)))).
  apply main_state_reachable.
Qed.

Lemma twice_finance_state_reachable : reachable twice_finance_state.
Proof. apply with_flow_submitted_reachable. Qed.

Lemma flagged_second_step_state_reachable :
  reachable flagged_second_step_state.
Proof. apply with_flow_submitted_reachable. Qed.

(** The decision logged for the documented action 'approve' is
    'Approve', which no rule counts as 'Approved'. *)
Lemma capitalize_approve :
  Py.capitalize "approve" = "Approve" ∧ Py.capitalize "approved" = "Approved"
  ∧ Py.capitalize "reject" = "Reject".
Proof. by repeat split. Qed.

(** C1 (the code at the failing input): with the flow Manager, Finance,
    Director and the rule Specific(Director) of the demo data, a claim is
    submitted and the Manager (2), the Finance member (4) and the Director
    (5) each send the action 'approve' while being the current approver.
    The claim ends Approved, yet by plain completion of the last step:
    the message is the full-approval one, no rule fired, and the history
    holds the three decisions only, without a system record. *)
Theorem scenario_A_approve_is_plain_completion :
  let before := scenario_A_before_director "approve" in
  let result := handle_approval_action "t5" "t6" 1 (act_as 5 "approve") before in
  (Expense.current_approver_id <$> Py.get 1 (EXPENSES before) = Some (Some 5))
  ∧ snd result = message "Expense **Fully Approved**!" 200
  ∧ (Expense.status <$> Py.get 1 (EXPENSES (fst result)) = Some "Approved")
  ∧ (Expense.approvals_history <$> Py.get 1 (EXPENSES (fst result))
     = Some [Approval.mk (ById 2) "Manager" "Approve" "" "t1";
             Approval.mk (ById 4) "Finance" "Approve" "" "t3";
             Approval.mk (ById 5) "Director" "Approve" "" "t5"]).
Proof. by repeat split. Qed.

(** Only a client that sends 'approved' gets the behaviour the scenario
    describes: the rule fires on the Director's decision and the system
    record closes the history. *)
Lemma scenario_A_approved_is_auto_approval :
  let before := scenario_A_before_director "approved" in
  let result := handle_approval_action "t5" "t6" 1 (act_as 5 "approved") before in
  snd result
  = message ("Expense **AUTO-APPROVED**! " ++ specific_message "Director") 200
  ∧ (Expense.status <$> Py.get 1 (EXPENSES (fst result)) = Some "Approved")
  ∧ (Expense.approvals_history <$> Py.get 1 (EXPENSES (fst result))
     = Some [Approval.mk (ById 2) "Manager" "Approved" "" "t1";
             Approval.mk (ById 4) "Finance" "Approved" "" "t3";
             Approval.mk (ById 5) "Director" "Approved" "" "t5";
             system_record (Some (specific_message "Director")) "t6"]).
Proof. by repeat split. Qed.

(** ** Approver resolution and the manager flag *)


(** ** Rewriting dictionary values commutes with reads and writes *)

Section MapValues.
Context {V W : Type} (g : Z → V → W).

Lemma get_map_values k (d : Py.dict V) :
  Py.get k (map_values g d) = g k <$> Py.get k d.
Proof.
  induction d as [|[k' v'] d IH]; simpl; [done|].
  by destruct (decide (k = k')) as [->|].
Qed.

Lemma set_map_values k v (d : Py.dict V) :
  Py.set k (g k v) (map_values g d) = map_values g (Py.set k v d).
Proof.
  induction d as [|[k' v'] d IH]; simpl; [done|].
  destruct (decide (k = k')) as [->|]; simpl; [done|].
  by rewrite <- IH.
Qed.

End MapValues.

(** ** Amount and currency do not reach the decision logic *)

Section Money.
Variables (target : Z) (amount : float) (currency : string).

Local Abbreviation G := (money_at target amount currency).
Local Abbreviation changed := (change_money target amount currency).

Lemma money_at_history k e :
  Expense.approvals_history (G k e) = Expense.approvals_history e.
Proof. unfold money_at. by destruct (decide _). Qed.

Lemma money_at_approver k e :
  Expense.current_approver_id (G k e) = Expense.current_approver_id e.
Proof. unfold money_at. by destruct (decide _). Qed.

Lemma money_at_step k e : Expense.current_step (G k e) = Expense.current_step e.
Proof. unfold money_at. by destruct (decide _). Qed.

Lemma money_at_status k e : Expense.status (G k e) = Expense.status e.
Proof. unfold money_at. by destruct (decide _). Qed.

Lemma money_at_with_history k h e :
  Expense.with_history h (G k e) = G k (Expense.with_history h e).
Proof. unfold money_at. by destruct (decide _). Qed.

Lemma money_at_with_status k st e :
  Expense.with_status st (G k e) = G k (Expense.with_status st e).
Proof. unfold money_at. by destruct (decide _). Qed.

Lemma money_at_with_step k n e :
  Expense.with_current_step n (G k e) = G k (Expense.with_current_step n e).
Proof. unfold money_at. by destruct (decide _). Qed.

Lemma money_at_with_approver k a e :
  Expense.with_current_approver_id a (G k e)
  = G k (Expense.with_current_approver_id a e).
Proof. unfold money_at. by destruct (decide _). Qed.

Lemma store_expense_changed k e s :
  store_expense k (G k e) (changed s) = changed (store_expense k e s).
Proof.
  unfold store_expense, change_money. simpl. by rewrite set_map_values.
Qed.

Lemma advance_to_next_step_changed k approver e s :
  advance_to_next_step k approver (G k e) (changed s)
  = (changed (fst (advance_to_next_step k approver e s)),
     snd (advance_to_next_step k approver e s)).
Proof.
  unfold advance_to_next_step.
  change (APPROVAL_RULES (changed s)) with (APPROVAL_RULES s).
  change (USERS (changed s)) with (USERS s).
  destruct (Py.get _ (APPROVAL_RULES s)) as [rules|]; simpl;
    [|by rewrite store_expense_changed].
  rewrite !money_at_step.
  destruct (decide _); simpl.
  - rewrite money_at_with_step. simpl.
    destruct (Py.index _ _) as [next_step|]; simpl;
      [|by rewrite store_expense_changed].
    destruct (find_user_by_role _ _ _) as [next_approver_user|]; simpl.
    + by rewrite money_at_with_approver, store_expense_changed.
    + by rewrite money_at_with_status, money_at_with_approver,
         store_expense_changed.
  - by rewrite money_at_with_status, money_at_with_approver,
       store_expense_changed.
Qed.

Lemma handle_approval_action_changed now1 now2 k data s :
  handle_approval_action now1 now2 k data (changed s)
  = (changed (fst (handle_approval_action now1 now2 k data s)),
     snd (handle_approval_action now1 now2 k data s)).
Proof.
  unfold handle_approval_action, handle_approval_action_with. cbv zeta.
  change (APPROVAL_RULES (changed s)) with (APPROVAL_RULES s).
  change (USERS (changed s)) with (USERS s).
  change (EXPENSES (changed s)) with (map_values G (EXPENSES s)).
  destruct (get_current_user _ _) as [approver|]; [|done].
  destruct (negb _); [done|].
  rewrite get_map_values.
  destruct (Py.get k (EXPENSES s)) as [expense|]; simpl; [|done].
  rewrite money_at_approver.
  destruct (negb _); [done|].
  destruct (action data) as [act|]; [|done].
  rewrite money_at_history, money_at_with_history.
  set (logged := Expense.with_history _ expense).
  destruct (bool_decide (act = "reject")).
  - by rewrite money_at_with_status, money_at_with_approver,
       store_expense_changed.
  - rewrite ?money_at_history.
    destruct (apply_conditional_rules _ _ _) as [[[] rule_message]|exn].
    + rewrite money_at_with_status, money_at_with_approver,
        ?money_at_history, money_at_with_history.
      by rewrite store_expense_changed.
    + apply advance_to_next_step_changed.
    + by rewrite store_expense_changed.
Qed.

End Money.

(** The listing is where the conversion shows: the Manager (2) sees the
    claim of scenario A, submitted in EUR, with the amount converted to
    the company currency at the EUR to USD rate and rounded. *)
Lemma mock_currency_conversion_same round2 amount from_currency to_currency :
  Py.upper from_currency = Py.upper to_currency →
  mock_currency_conversion round2 amount from_currency to_currency = amount.
Proof.
  intros H. unfold mock_currency_conversion. by rewrite bool_decide_eq_true_2.
Qed.

Lemma listing_converts_amount round2 str_of_float :
  view_pending_expenses round2 str_of_float 2 scenario_A_submitted
  = jsonify
      [("message", JStr "1 expense(s) pending your approval.");
       ("company_currency", JStr "USD");
       ("pending_expenses",
        JList
          [JObj
             [("expense_id", JInt 1);
              ("employee_email", JStr "employee@company.com");
              ("amount_original", JStr (str_of_float 100%float ++ " EUR"));
              ("amount_company_currency",
               JStr (str_of_float (round2 (PrimFloat.mul 100 1.08)) ++ " USD"));
              ("description", JStr "Taxi");
              ("category", JStr "Travel")]])]
      200.
Proof. reflexivity. Qed.

(** C9: take any state and the same state in which a claim was stored
    with another amount and currency.  The same action request gives the
    same HTTP outcome in both, the resulting states again differ in that
    amount and currency only, so that status, step, approver and history
    of every claim coincide, and so does what the evaluator answers on
    them.  (The conversion function is a parameter of the listing only:
    [handle_approval_action] and [apply_conditional_rules] do not take
    it.) *)
Theorem decisions_ignore_amount_and_currency
    now1 now2 expense_id data s claim amount currency :
  let r1 := handle_approval_action now1 now2 expense_id data s in
  let r2 := handle_approval_action now1 now2 expense_id data
              (change_money claim amount currency s) in
  snd r2 = snd r1
  ∧ fst r2 = change_money claim amount currency (fst r1)
  ∧ (∀ k, decision_fields <$> Py.get k (EXPENSES (fst r2))
          = decision_fields <$> Py.get k (EXPENSES (fst r1)))
  ∧ (∀ company_id k,
       evaluation company_id k (fst r2) = evaluation company_id k (fst r1)).
Proof.
  intros r1 r2. subst r1 r2.
  rewrite handle_approval_action_changed. simpl.
  split; [done|]. split; [done|].
  set (s' := fst (handle_approval_action now1 now2 expense_id data s)).
  split.
  - intros k. unfold change_money. simpl. rewrite get_map_values.
    destruct (Py.get k (EXPENSES s')) as [e|]; simpl; [|done].
    unfold decision_fields.
    by rewrite money_at_status, money_at_step, money_at_approver,
       money_at_history.
  - intros company_id k. unfold evaluation, change_money. simpl.
    rewrite get_map_values.
    destruct (Py.get k (EXPENSES s')) as [e|]; simpl; [|done].
    by rewrite money_at_history.
Qed.

(** ** The manager flag is read for the first step only *)







(** ** What one action does to the claim *)

(** Membership in a list of literals, by evaluation. *)
Ltac in_list := apply (bool_decide_unpack _); reflexivity.

(** The sequential flow writes the claim back once, with the same
    history; it either keeps the status (and then the approver is left
    as it was or set to the next one) or closes the claim. *)
Lemma advance_to_next_step_result k approver e s :
  ∃ e', fst (advance_to_next_step k approver e s) = store_expense k e' s
        ∧ Expense.approvals_history e' = Expense.approvals_history e
        ∧ ((Expense.status e' = Expense.status e
            ∧ (Expense.current_approver_id e' = Expense.current_approver_id e
               ∨ is_Some (Expense.current_approver_id e')))
           ∨ (Expense.status e' ∈ ["Approved"; "Approval Halted"]
              ∧ Expense.current_approver_id e' = None)).
Proof.
  unfold advance_to_next_step.
  destruct (Py.get _ _) as [rules|]; simpl; [|by eauto 10].
  destruct (decide _); simpl.
  - destruct (Py.index _ _) as [next_step|]; simpl; [|by eauto 10].
    destruct (find_user_by_role _ _ _) as [next_approver_user|]; simpl.
    + eexists. split; [done|]. split; [done|]. left. split; [done|].
      right. by eexists.
    + eexists. split; [done|]. split; [done|]. right. split; [|done].
      simpl. in_list.
  - eexists. split; [done|]. split; [done|]. right. split; [|done].
    simpl. in_list.
Qed.

(** A request that passes the four checks of the handler. *)
Lemma handle_approval_action_with_passed
    capitalize now1 now2 k data s approver expense act :
  get_current_user (USERS s) (approver_id data) = Some approver →
  User.role approver ∈ APPROVER_ROLES →
  Py.get k (EXPENSES s) = Some expense →
  Expense.current_approver_id expense = Some (User.id approver) →
  action data = Some act →
  handle_approval_action_with capitalize now1 now2 k data s
  = let logged :=
      Expense.with_history
        (Expense.approvals_history expense
           ++ [Approval.mk (ById (User.id approver)) (User.role approver)
                           (capitalize act) (comment data) now1])
        expense in
    if bool_decide (act = "reject")
    then (store_expense k
            (Expense.with_current_approver_id None
               (Expense.with_status "Rejected" logged)) s,
          message "Expense claim **Rejected**." 200)
    else
      match apply_conditional_rules (APPROVAL_RULES s)
              (User.company_id approver) (Expense.approvals_history logged) with
      | Py.Raise exn => (store_expense k logged s, Raises exn)
      | Py.Return (true, rule_message) =>
          (store_expense k
             (Expense.with_history
                (Expense.approvals_history logged
                   ++ [system_record rule_message now2])
                (Expense.with_current_approver_id None
                   (Expense.with_status "Approved" logged))) s,
           message ("Expense **AUTO-APPROVED**! "
                      ++ default "None" rule_message) 200)
      | Py.Return (false, _) => advance_to_next_step k approver logged s
      end.
Proof.
  intros Hu Hr He Ha Hact. unfold handle_approval_action_with.
  rewrite Hu, (bool_decide_eq_true_2 _ Hr), He, Ha, Hact. simpl.
  by rewrite bool_decide_eq_true_2.
Qed.

Lemma handle_approval_action_passed now1 now2 k data s approver expense act :
  get_current_user (USERS s) (approver_id data) = Some approver →
  User.role approver ∈ APPROVER_ROLES →
  Py.get k (EXPENSES s) = Some expense →
  Expense.current_approver_id expense = Some (User.id approver) →
  action data = Some act →
  handle_approval_action now1 now2 k data s
  = let logged :=
      Expense.with_history
        (Expense.approvals_history expense
           ++ [Approval.mk (ById (User.id approver)) (User.role approver)
                           (Py.capitalize act) (comment data) now1])
        expense in
    if bool_decide (act = "reject")
    then (store_expense k
            (Expense.with_current_approver_id None
               (Expense.with_status "Rejected" logged)) s,
          message "Expense claim **Rejected**." 200)
    else
      match apply_conditional_rules (APPROVAL_RULES s)
              (User.company_id approver) (Expense.approvals_history logged) with
      | Py.Raise exn => (store_expense k logged s, Raises exn)
      | Py.Return (true, rule_message) =>
          (store_expense k
             (Expense.with_history
                (Expense.approvals_history logged
                   ++ [system_record rule_message now2])
                (Expense.with_current_approver_id None
                   (Expense.with_status "Approved" logged))) s,
           message ("Expense **AUTO-APPROVED**! "
                      ++ default "None" rule_message) 200)
      | Py.Return (false, _) => advance_to_next_step k approver logged s
      end.
Proof. apply handle_approval_action_with_passed. Qed.

(** A request stopped by one of the checks: the state is untouched and
    the outcome is an error. *)
Lemma handle_approval_action_cases now1 now2 k data s :
  (fst (handle_approval_action now1 now2 k data s) = s
   ∧ status_code (snd (handle_approval_action now1 now2 k data s))
     ∈ [403; 404; 500])
  ∨ (∃ approver expense act,
       get_current_user (USERS s) (approver_id data) = Some approver
       ∧ User.role approver ∈ APPROVER_ROLES
       ∧ Py.get k (EXPENSES s) = Some expense
       ∧ Expense.current_approver_id expense = Some (User.id approver)
       ∧ action data = Some act).
Proof.
  unfold handle_approval_action, handle_approval_action_with.
  destruct (get_current_user _ _) as [approver|] eqn:Hu;
    [|left; split; [done|in_list]].
  destruct (bool_decide (User.role approver ∈ APPROVER_ROLES)) eqn:Hr; simpl;
    [|left; split; [done|in_list]].
  destruct (Py.get k (EXPENSES s)) as [expense|] eqn:He;
    [|left; split; [done|in_list]].
  destruct (bool_decide (Expense.current_approver_id expense
                         = Some (User.id approver))) eqn:Ha; simpl;
    [|left; split; [done|in_list]].
  destruct (action data) as [act|] eqn:Hact;
    [|left; split; [done|in_list]].
  right. exists approver, expense, act.
  apply bool_decide_eq_true in Hr, Ha. done.
Qed.

(** The claim an action writes back. *)
Lemma handle_approval_action_result now1 now2 k data s approver expense act :
  get_current_user (USERS s) (approver_id data) = Some approver →
  User.role approver ∈ APPROVER_ROLES →
  Py.get k (EXPENSES s) = Some expense →
  Expense.current_approver_id expense = Some (User.id approver) →
  action data = Some act →
  ∃ e' tail,
    fst (handle_approval_action now1 now2 k data s) = store_expense k e' s
    ∧ Expense.approvals_history e'
      = (Expense.approvals_history expense
           ++ Approval.mk (ById (User.id approver)) (User.role approver)
                          (Py.capitalize act) (comment data) now1 :: tail)%list
    ∧ (Expense.status e' = "Rejected" ∧ Expense.current_approver_id e' = None
       ∧ act = "reject"
       ∨ act ≠ "reject"
         ∧ ((Expense.status e' = Expense.status expense
             ∧ is_Some (Expense.current_approver_id e'))
            ∨ (Expense.status e' ∈ ["Approved"; "Approval Halted"]
               ∧ Expense.current_approver_id e' = None))).
Proof.
  intros Hu Hr He Ha Hact.
  rewrite (handle_approval_action_passed _ _ _ _ _ _ _ _ Hu Hr He Ha Hact).
  cbv zeta. case_bool_decide as Hrej.
  - eexists _, []. simpl. split; [done|]. split; [done|]. by left.
  - destruct (apply_conditional_rules _ _ _) as [[[] rule_message]|exn];
      [| |eexists _, []; simpl; split; [done|]; split; [done|];
          right; split; [done|]; left; split; [done|];
          simpl; rewrite Ha; by eexists].
    + eexists _, [_]. simpl. split; [done|].
      split; [by rewrite <- app_assoc|].
      right. split; [done|]. right. split; [in_list|done].
    + destruct (advance_to_next_step_result k approver
                  (Expense.with_history
                     (Expense.approvals_history expense
                        ++ [Approval.mk (ById (User.id approver))
                                        (User.role approver)
                                        (Py.capitalize act) (comment data)
                                        now1]) expense) s)
        as (e' & -> & Hh & Hst).
      exists e', []. split; [done|]. split; [by rewrite Hh|].
      right. split; [done|]. simpl in Hst.
      destruct Hst as [[Hs [Happ|Happ]]|Hs]; [left|left|by right].
      * split; [done|]. rewrite Happ, Ha. by eexists.
      * done.
Qed.

(** ** The invariant of the claims *)

Lemma signup_expenses user_email s :
  EXPENSES (fst (signup user_email s)) = EXPENSES s
  ∧ NEXT_EXPENSE_ID (fst (signup user_email s)) = NEXT_EXPENSE_ID s.
Proof.
  unfold signup. destruct (USERS s); [|done]. simpl.
  by destruct (Py.get _ _).
Qed.

Lemma manage_user_expenses data s :
  EXPENSES (fst (manage_user data s)) = EXPENSES s
  ∧ NEXT_EXPENSE_ID (fst (manage_user data s)) = NEXT_EXPENSE_ID s.
Proof.
  unfold manage_user. destruct (get_current_user _ _); [|done].
  repeat (destruct (negb _); [done|]). by destruct (invalid_manager _ _).
Qed.

Lemma configure_approval_flow_expenses data s :
  EXPENSES (fst (configure_approval_flow data s)) = EXPENSES s
  ∧ NEXT_EXPENSE_ID (fst (configure_approval_flow data s)) = NEXT_EXPENSE_ID s.
Proof.
  unfold configure_approval_flow. destruct (get_current_user _ _); [|done].
  destruct (negb _); [done|].
  destruct (flow_steps data), (conditional_rule data); try done.
  by destruct (negb _).
Qed.

(** A submission either changes nothing or stores one new claim, under
    the next free number, in status 'Submitted' with an approver. *)
Lemma submit_expense_cases data s :
  fst (submit_expense data s) = s
  ∨ ∃ e, EXPENSES (fst (submit_expense data s))
         = Py.set (NEXT_EXPENSE_ID s) e (EXPENSES s)
         ∧ NEXT_EXPENSE_ID (fst (submit_expense data s)) = NEXT_EXPENSE_ID s + 1
         ∧ Expense.status e = "Submitted"
         ∧ is_Some (Expense.current_approver_id e).
Proof.
  unfold submit_expense. cbv zeta.
  destruct (get_current_user _ _) as [current_user|]; [|by left].
  destruct (negb _); [by left|].
  destruct (sr_amount data), (sr_currency data), (sr_category data),
    (sr_description data), (sr_date data); try by left.
  destruct (Py.get _ _) as [flow|]; [|by left].
  destruct (Py.index _ _) as [first_step|]; [|by left].
  destruct (first_step_approver _ _ _) as [a|] eqn:Hfirst; simpl; [|by left].
  destruct (negb _); [by left|].
  right. eexists. simpl. repeat split. by eexists.
Qed.

Lemma claims_ok_handle r s : claims_ok s → claims_ok (fst (handle r s)).
Proof.
  intros Hok. destruct r as [email|data|data|data|now1 now2 k data]; simpl.
  - destruct (signup_expenses email s) as [HE HN].
    unfold claims_ok. rewrite HE, HN. apply Hok.
  - destruct (manage_user_expenses data s) as [HE HN].
    unfold claims_ok. rewrite HE, HN. apply Hok.
  - destruct (configure_approval_flow_expenses data s) as [HE HN].
    unfold claims_ok. rewrite HE, HN. apply Hok.
  - destruct (submit_expense_cases data s) as [->|(e & HE & HN & Hst & Ha)];
      [done|].
    intros k' e'. rewrite HE, HN.
    intros [[= -> ->]|Hin]%elem_of_set.
    + split; [by unfold claim_ok|lia].
    + destruct (Hok _ _ Hin). split; [done|lia].
  - destruct (handle_approval_action_cases now1 now2 k data s)
      as [[-> _]|(approver & expense & act & Hu & Hr & He & Ha & Hact)];
      [done|].
    destruct (handle_approval_action_result now1 now2 _ _ _ _ _ _
                Hu Hr He Ha Hact) as (e' & tail & -> & _ & Hst).
    apply get_Some_elem_of in He. destruct (Hok _ _ He) as [Hexp Hk].
    intros k' e''. simpl. intros [[= -> ->]|Hin]%elem_of_set; [|by apply Hok].
    split; [|done]. unfold claim_ok in *.
    destruct Hst as [(-> & -> & _)|[_ [[-> Hsome]|[Hs ->]]]].
    + split; [by intros []|done].
    + split; [intros _|done]. apply Hexp. rewrite Ha. by eexists.
    + split; [by intros []|].
      intros Hsub. rewrite Hsub in Hs.
      by apply (bool_decide_pack _), Is_true_eq_true in Hs.
Qed.

Lemma reachable_claims_ok s : reachable s → claims_ok s.
Proof.
  induction 1 as [|s r _ IH].
  - intros k e Hin. by apply not_elem_of_nil in Hin.
  - by apply claims_ok_handle.
Qed.

(** A closed claim has no approver, so every action on it stops at the
    approver check (or earlier, at the role check). *)
Lemma closed_claim_refuses now1 now2 k data s e :
  claim_ok e → Py.get k (EXPENSES s) = Some e →
  Expense.status e ≠ "Submitted" →
  fst (handle_approval_action now1 now2 k data s) = s
  ∧ status_code (snd (handle_approval_action now1 now2 k data s)) = 403.
Proof.
  intros Hok He Hst. unfold handle_approval_action, handle_approval_action_with.
  destruct (get_current_user _ _) as [approver|]; [|done].
  destruct (negb _); [done|]. rewrite He.
  rewrite bool_decide_eq_false_2; [done|].
  intros Ha. apply Hst, Hok. rewrite Ha. by eexists.
Qed.

Lemma terminal_not_submitted status : terminal status → status ≠ "Submitted".
Proof.
  unfold terminal. intros Ht ->.
  by apply (bool_decide_pack _), Is_true_eq_true in Ht.
Qed.

(** No request touches a closed claim. *)
Lemma closed_claim_kept r s k e :
  claims_ok s → Py.get k (EXPENSES s) = Some e →
  Expense.status e ≠ "Submitted" →
  Py.get k (EXPENSES (fst (handle r s))) = Some e.
Proof.
  intros Hok He Hst.
  destruct r as [email|data|data|data|now1 now2 k' data]; simpl.
  - by rewrite (proj1 (signup_expenses email s)).
  - by rewrite (proj1 (manage_user_expenses data s)).
  - by rewrite (proj1 (configure_approval_flow_expenses data s)).
  - destruct (submit_expense_cases data s) as [->|(e' & -> & _)]; [done|].
    rewrite get_set_ne; [done|].
    apply get_Some_elem_of, Hok in He. lia.
  - destruct (decide (k' = k)) as [->|Hne].
    + by rewrite (proj1 (closed_claim_refuses now1 now2 k data s e
                           (proj1 (Hok _ _ (get_Some_elem_of _ _ _ He)))
                           He Hst)).
    + destruct (handle_approval_action_cases now1 now2 k' data s)
        as [[-> _]|(approver & expense & act & Hu & Hr & He' & Ha & Hact)];
        [done|].
      destruct (handle_approval_action_result now1 now2 _ _ _ _ _ _
                  Hu Hr He' Ha Hact) as (e' & tail & -> & _).
      simpl. by rewrite get_set_ne.
Qed.

(** C7: in every state the server can reach, every stored claim has its
    current approver set exactly when its status is 'Submitted'.
    Submission stores the claim with both; each transition to 'Rejected',
    'Approved' or 'Approval Halted' clears the approver. *)
Theorem approver_set_iff_submitted s k e :
  reachable s → (k, e) ∈ EXPENSES s →
  is_Some (Expense.current_approver_id e) ↔ Expense.status e = "Submitted".
Proof. intros Hs Hin. by apply (reachable_claims_ok s Hs k e Hin). Qed.

Lemma scenario_A_done_reachable : reachable scenario_A_done.
Proof. do 2 apply run_reachable. apply main_state_reachable. Qed.

Lemma scenario_A_done_expenses :
  EXPENSES scenario_A_done = [(1, scenario_A_claim)].
Proof. vm_compute. reflexivity. Qed.

Lemma approver_set_iff_submitted_witness :
  is_Some (Expense.current_approver_id scenario_A_claim)
  ↔ Expense.status scenario_A_claim = "Submitted".
Proof.
  apply (approver_set_iff_submitted scenario_A_done 1 scenario_A_claim).
  - apply scenario_A_done_reachable.
  - rewrite scenario_A_done_expenses. apply list_elem_of_here.
Defined.

(** C6: once a claim of a reachable state is 'Approved', 'Rejected' or
    'Approval Halted', whatever requests the server handles afterwards
    leave the claim as it is, and every later action on it is refused
    with 403 without any change of the state. *)
Theorem closed_claims_stay_closed s expense_id e :
  reachable s →
  Py.get expense_id (EXPENSES s) = Some e →
  terminal (Expense.status e) →
  ∀ rs now1 now2 data,
    Py.get expense_id (EXPENSES (run rs s)) = Some e
    ∧ fst (handle_approval_action now1 now2 expense_id data (run rs s))
      = run rs s
    ∧ status_code
        (snd (handle_approval_action now1 now2 expense_id data (run rs s)))
      = 403.
Proof.
  intros Hs He Ht rs. apply terminal_not_submitted in Ht.
  revert s Hs He. induction rs as [|r rs IH]; intros s Hs He now1 now2 data.
  - simpl. split; [done|].
    apply (closed_claim_refuses now1 now2 expense_id data s e); [|done..].
    by apply (reachable_claims_ok s Hs expense_id e), get_Some_elem_of.
  - simpl. apply IH; [by constructor|].
    apply closed_claim_kept; [by apply reachable_claims_ok|done..].
Qed.

Lemma closed_claims_stay_closed_witness :
  Py.get 1 (EXPENSES (run [ApprovalAction "t7" "t8" 1 (act_as 5 "approve")]
                          scenario_A_done))
  = Some scenario_A_claim
  ∧ fst (handle_approval_action "t9" "t10" 1 (act_as 5 "reject")
           (run [ApprovalAction "t7" "t8" 1 (act_as 5 "approve")]
                scenario_A_done))
    = run [ApprovalAction "t7" "t8" 1 (act_as 5 "approve")] scenario_A_done
  ∧ status_code
      (snd (handle_approval_action "t9" "t10" 1 (act_as 5 "reject")
              (run [ApprovalAction "t7" "t8" 1 (act_as 5 "approve")]
                   scenario_A_done)))
    = 403.
Proof.
  apply (closed_claims_stay_closed scenario_A_done 1 scenario_A_claim).
  - apply scenario_A_done_reachable.
  - reflexivity.
  - unfold terminal. simpl. apply list_elem_of_here.
Defined.

(** C5, as stated, fails on the demo data: claim 99 does not exist and
    the sender (3) is an Employee; the answer is the 403 of the role
    check, not the 404 of the missing claim, so the existence of the
    claim is not what the handler checks first. *)
Lemma role_checked_before_claim :
  Py.get 99 (EXPENSES main_state) = None
  ∧ handle_approval_action "t1" "t2" 99 (act_as 3 "approve") main_state
    = (main_state,
       message "Permission denied. Invalid approver ID or role." 403).
Proof. by split. Qed.

(** C5 (amended): the handler checks, in this order, that the sender is
    a known user with role Admin, Manager, Finance or Director (403),
    that the claim exists (404), and that the sender is the claim's
    current approver (403).  The status is not read: in a reachable
    state a claim that is not 'Submitted' has no current approver, so
    the third check refuses it.  Each refusal leaves the state as it
    was. *)
Theorem action_checks_in_order now1 now2 expense_id data s :
  let r := handle_approval_action now1 now2 expense_id data s in
  ((∀ approver, get_current_user (USERS s) (approver_id data) = Some approver →
                User.role approver ∉ APPROVER_ROLES) →
   r = (s, message "Permission denied. Invalid approver ID or role." 403))
  ∧ (∀ approver,
       get_current_user (USERS s) (approver_id data) = Some approver →
       User.role approver ∈ APPROVER_ROLES →
       (Py.get expense_id (EXPENSES s) = None →
        r = (s, message "Expense not found." 404))
       ∧ (∀ expense,
            Py.get expense_id (EXPENSES s) = Some expense →
            Expense.current_approver_id expense ≠ Some (User.id approver) →
            r = (s, message "You are not the current designated approver for this expense." 403)))
  ∧ (reachable s →
     ∀ expense, Py.get expense_id (EXPENSES s) = Some expense →
                Expense.status expense ≠ "Submitted" →
                fst r = s ∧ status_code (snd r) = 403).
Proof.
  intros r. subst r. split; [|split].
  - intros Hno. unfold handle_approval_action, handle_approval_action_with.
    destruct (get_current_user _ _) as [approver|]; [|done].
    by rewrite (bool_decide_eq_false_2 _ (Hno approver eq_refl)).
  - intros approver Hu Hr.
    unfold handle_approval_action, handle_approval_action_with.
    rewrite Hu, (bool_decide_eq_true_2 _ Hr). simpl. split.
    + by intros ->.
    + intros expense -> Hne. by rewrite (bool_decide_eq_false_2 _ Hne).
  - intros Hs expense He Hst. apply (closed_claim_refuses _ _ _ _ _ expense);
      [|done..].
    by apply (reachable_claims_ok s Hs expense_id expense), get_Some_elem_of.
Qed.

(** ** The same action sent twice *)

(** When the sequential flow answers 200, the claim it writes back has
    no approver, or the approver is the first user found for the role of
    the next step. *)
Lemma advance_to_next_step_approver k approver e s :
  succeeded (snd (advance_to_next_step k approver e s)) →
  ∃ e', fst (advance_to_next_step k approver e s) = store_expense k e' s
        ∧ (Expense.current_approver_id e' = None
           ∨ ∃ flow next_step next_user,
               Py.get (User.company_id approver) (APPROVAL_RULES s) = Some flow
               ∧ Py.index (Flow.steps flow) (Expense.current_step e)
                 = Some next_step
               ∧ find_user_by_role (USERS s) (User.company_id approver)
                                   (Step.role next_step) = Some next_user
               ∧ Expense.current_approver_id e' = Some (User.id next_user)).
Proof.
  unfold advance_to_next_step, succeeded.
  destruct (Py.get _ _) as [rules|] eqn:Hrules; simpl; [|done].
  destruct (decide _); simpl; [|by eauto].
  rewrite Z.add_simpl_r.
  destruct (Py.index _ _) as [next_step|] eqn:Hstep; simpl; [|done].
  destruct (find_user_by_role _ _ _) as [next_approver_user|] eqn:Hfind;
    simpl; [|by eauto].
  intros _. eexists. split; [done|]. right.
  exists rules, next_step, next_approver_user. by rewrite Hfind.
Qed.

Lemma advance_to_next_step_code k approver e s :
  status_code (snd (advance_to_next_step k approver e s)) ≠ 403.
Proof.
  unfold advance_to_next_step.
  destruct (Py.get _ _) as [rules|]; simpl; [|done].
  destruct (decide _); simpl; [|done].
  destruct (Py.index _ _) as [next_step|]; simpl; [|done].
  by destruct (find_user_by_role _ _ _).
Qed.

(** C8, as stated, fails on the demo data with two Finance steps in a
    row and no rule: the Finance member (4) approves, the claim is routed
    to the Finance member again, and the same request sent a second time
    is accepted and completes the claim. *)
Lemma same_approver_accepted_twice :
  handle_approval_action "t1" "t2" 1 (act_as 4 "approve") twice_finance_state
  = (twice_finance_once,
     jsonify [("message", JStr "Expense approved. Routed to next approver.");
              ("next_approver_role", JStr "Finance");
              ("next_approver_id", JInt 4)] 200)
  ∧ snd (handle_approval_action "t3" "t4" 1 (act_as 4 "approve")
           twice_finance_once)
    = message "Expense **Fully Approved**!" 200.
Proof. by split. Qed.

(** C8 (amended): after an action that succeeded, the same request sent
    again is refused with the 403 of the approver check, and changes
    nothing, whenever the claim's current approver is no longer the
    sender (it was cleared or is another user).  The sender is still the
    current approver only if the claim moved to a next step and the
    first user found for that step's role is the sender again; the
    repeated request then passes the approver check. *)
Theorem repeated_action_refused now1 now2 now3 now4 expense_id data s :
  succeeded (snd (handle_approval_action now1 now2 expense_id data s)) →
  ∃ approver expense e',
    get_current_user (USERS s) (approver_id data) = Some approver
    ∧ Py.get expense_id (EXPENSES s) = Some expense
    ∧ Py.get expense_id
        (EXPENSES (fst (handle_approval_action now1 now2 expense_id data s)))
      = Some e'
    ∧ (Expense.current_approver_id e' ≠ Some (User.id approver) →
       handle_approval_action now3 now4 expense_id data
         (fst (handle_approval_action now1 now2 expense_id data s))
       = (fst (handle_approval_action now1 now2 expense_id data s),
          message "You are not the current designated approver for this expense." 403))
    ∧ (Expense.current_approver_id e' = Some (User.id approver) →
       status_code
         (snd (handle_approval_action now3 now4 expense_id data
                 (fst (handle_approval_action now1 now2 expense_id data s))))
       ≠ 403
       ∧ ∃ flow next_step next_user,
           Py.get (User.company_id approver) (APPROVAL_RULES s) = Some flow
           ∧ Py.index (Flow.steps flow) (Expense.current_step expense)
             = Some next_step
           ∧ find_user_by_role (USERS s) (User.company_id approver)
                               (Step.role next_step) = Some next_user
           ∧ User.id next_user = User.id approver).
Proof.
  intros Hok.
  destruct (handle_approval_action_cases now1 now2 expense_id data s)
    as [[_ Hcode]|(approver & expense & act & Hu & Hr & He & Ha & Hact)].
  { unfold succeeded in Hok. rewrite Hok in Hcode.
    by apply (bool_decide_pack _), Is_true_eq_true in Hcode. }
  exists approver, expense.
  assert (Hres : ∃ e',
    fst (handle_approval_action now1 now2 expense_id data s)
    = store_expense expense_id e' s
    ∧ (Expense.current_approver_id e' = None
       ∨ ∃ flow next_step next_user,
           Py.get (User.company_id approver) (APPROVAL_RULES s) = Some flow
           ∧ Py.index (Flow.steps flow) (Expense.current_step expense)
             = Some next_step
           ∧ find_user_by_role (USERS s) (User.company_id approver)
                               (Step.role next_step) = Some next_user
           ∧ Expense.current_approver_id e' = Some (User.id next_user))).
  { revert Hok.
    rewrite (handle_approval_action_passed _ _ _ _ _ _ _ _ Hu Hr He Ha Hact).
    cbv zeta. case_bool_decide; [by eauto|].
    destruct (apply_conditional_rules _ _ _) as [[[] rule_message]|exn];
      [by eauto| |done].
    intros Hadv.
    by destruct (advance_to_next_step_approver _ _ _ _ Hadv) as (e' & ? & ?);
      exists e'. }
  destruct Hres as (e' & Hfst & Happ). exists e'.
  rewrite Hfst. simpl. rewrite get_set_eq.
  split; [done|]. split; [done|]. split; [done|].
  assert (Hu' : get_current_user (USERS (store_expense expense_id e' s))
                                 (approver_id data) = Some approver) by done.
  assert (He' : Py.get expense_id (EXPENSES (store_expense expense_id e' s))
                = Some e') by (simpl; apply get_set_eq).
  split.
  - intros Hne. unfold handle_approval_action, handle_approval_action_with.
    rewrite Hu', (bool_decide_eq_true_2 _ Hr), He'. simpl.
    by rewrite (bool_decide_eq_false_2 _ Hne).
  - intros Hsame. split.
    + rewrite (handle_approval_action_passed _ _ _ _ _ _ _ _
                 Hu' Hr He' Hsame Hact).
      cbv zeta. case_bool_decide; [done|].
      destruct (apply_conditional_rules _ _ _) as [[[] rule_message]|exn];
        [done| |done].
      apply advance_to_next_step_code.
    + destruct Happ as [Hnone|(flow & next_step & next_user & ? & ? & ? & Hn)].
      * by rewrite Hnone in Hsame.
      * exists flow, next_step, next_user. rewrite Hn in Hsame.
        by injection Hsame as ->.
Qed.

Lemma repeated_action_refused_witness :
  ∃ approver expense e',
    get_current_user (USERS scenario_A_submitted) (Some 2) = Some approver
    ∧ Py.get 1 (EXPENSES scenario_A_submitted) = Some expense
    ∧ Py.get 1 (EXPENSES scenario_A_after_manager) = Some e'
    ∧ (Expense.current_approver_id e' ≠ Some (User.id approver) →
       handle_approval_action "t3" "t4" 1 (act_as 2 "approve")
                              scenario_A_after_manager
       = (scenario_A_after_manager,
          message "You are not the current designated approver for this expense." 403))
    ∧ (Expense.current_approver_id e' = Some (User.id approver) →
       status_code
         (snd (handle_approval_action "t3" "t4" 1 (act_as 2 "approve")
                                      scenario_A_after_manager))
       ≠ 403
       ∧ ∃ flow next_step next_user,
           Py.get (User.company_id approver) (APPROVAL_RULES scenario_A_submitted)
           = Some flow
           ∧ Py.index (Flow.steps flow) (Expense.current_step expense)
             = Some next_step
           ∧ find_user_by_role (USERS scenario_A_submitted)
                               (User.company_id approver)
                               (Step.role next_step) = Some next_user
           ∧ User.id next_user = User.id approver).
Proof.
  apply (repeated_action_refused "t1" "t2" "t3" "t4" 1 (act_as 2 "approve")
           scenario_A_submitted).
  reflexivity.
Defined.

(** ** Well-formed states are kept by every route *)

Lemma set_fresh {V} k v (d : Py.dict V) :
  k ∉ d.*1 → Py.set k v d = (d ++ [(k, v)])%list.
Proof.
  induction d as [|[k' v'] d IH]; simpl; [done|].
  rewrite not_elem_of_cons. intros [Hne Hnot].
  rewrite decide_False by done. by rewrite IH.
Qed.

Lemma set_present {V} k v (d : Py.dict V) :
  k ∈ d.*1 → (Py.set k v d).*1 = d.*1.
Proof.
  induction d as [|[k' v'] d IH]; simpl.
  - by intros ?%not_elem_of_nil.
  - destruct (decide (k = k')) as [->|Hne]; simpl; [done|].
    intros [?|Hin]%elem_of_cons; [done|]. f_equal. by apply IH.
Qed.

Lemma set_not_nil {V} k v (d : Py.dict V) : Py.set k v d ≠ [].
Proof. destruct d as [|[k' v'] d]; simpl; [done|]. by destruct (decide _). Qed.

Lemma keys_below_fresh {V} n (d : Py.dict V) :
  (∀ k v, (k, v) ∈ d → k < n) → n ∉ d.*1.
Proof.
  intros Hlt ([k v] & -> & Hin)%list_elem_of_fmap. simpl in Hlt.
  specialize (Hlt _ _ Hin). simpl in Hlt. lia.
Qed.

Lemma sorted_snoc (l : list Z) n :
  StronglySorted Z.lt l → (∀ k, k ∈ l → k < n) →
  StronglySorted Z.lt (l ++ [n])%list.
Proof.
  intros Hs Hlt. apply StronglySorted_app_2; [|done|repeat constructor].
  intros x1 x2 Hx1 ->%list_elem_of_singleton. by apply Hlt.
Qed.

(** In a dictionary with increasing keys a stored pair is what a lookup
    of its key returns. *)
Lemma sorted_elem_of_get {V} k v (d : Py.dict V) :
  StronglySorted Z.lt (d.*1) → (k, v) ∈ d → Py.get k d = Some v.
Proof.
  induction d as [|[k' v'] d IH]; simpl.
  - by intros _ ?%not_elem_of_nil.
  - intros [Hall Hs]%StronglySorted_cons [[= -> ->]|Hin]%elem_of_cons.
    + by rewrite decide_True.
    + rewrite decide_False; [by apply IH|].
      intros ->. rewrite Forall_forall in Hall.
      assert (k' < k') by (apply Hall, list_elem_of_fmap; by exists (k', v)).
      lia.
Qed.

Lemma elem_of_keys {V} k v (d : Py.dict V) : (k, v) ∈ d → k ∈ d.*1.
Proof. intros Hin. apply list_elem_of_fmap. by exists (k, v). Qed.

Lemma wf_initial : wf initial_state.
Proof.
  split; simpl; try done; try (by intros ? ? ?%not_elem_of_nil);
    constructor.
Qed.

Lemma wf_after_signup user_email :
  wf (fst (signup user_email initial_state)).
Proof.
  split; simpl; try done.
  - intros k u [= -> ->]%list_elem_of_singleton.
    repeat split; simpl; try lia. in_list.
  - repeat constructor.
  - intros k u [= -> ->]%list_elem_of_singleton m. done.
  - intros _. by eexists.
  - by intros ? ? ?%not_elem_of_nil.
  - by intros ? ? ?%not_elem_of_nil.
  - constructor.
Qed.

Lemma wf_signup user_email s : wf s → wf (fst (signup user_email s)).
Proof.
  intros Hwf. destruct (USERS s) as [|x l] eqn:HU.
  - rewrite (wf_fresh s Hwf HU). apply wf_after_signup.
  - unfold signup. by rewrite HU.
Qed.

Lemma wf_user_keys_below s : wf s → NEXT_USER_ID s ∉ (USERS s).*1.
Proof.
  intros Hwf. apply keys_below_fresh. intros k u Hin.
  destruct (wf_users s Hwf k u Hin) as (_ & ? & _). lia.
Qed.

Lemma wf_expense_keys_below s : wf s → NEXT_EXPENSE_ID s ∉ (EXPENSES s).*1.
Proof.
  intros Hwf. apply keys_below_fresh. intros k e Hin.
  destruct (wf_expenses s Hwf k e Hin) as (_ & _ & ? & _). lia.
Qed.

Lemma wf_users_nonempty s k u : (k, u) ∈ USERS s → USERS s ≠ [].
Proof. intros Hin H. rewrite H in Hin. by apply not_elem_of_nil in Hin. Qed.

Lemma wf_manage_user data s : wf s → wf (fst (manage_user data s)).
Proof.
  intros Hwf. unfold manage_user.
  destruct (get_current_user _ _) as [admin_user|] eqn:Hadmin; [|done].
  destruct (negb _); [done|].
  destruct (bool_decide (mu_role data ∈ ROLES)) eqn:Hrole; simpl; [|done].
  apply bool_decide_eq_true in Hrole.
  destruct (invalid_manager _ _) eqn:Hmgr; [done|]. simpl.
  simpl in Hadmin. apply get_Some_elem_of in Hadmin as Hin1.
  destruct (wf_users s Hwf _ _ Hin1) as (_ & Hb1 & _ & Hc1).
  pose proof (wf_user_keys_below s Hwf) as Hfresh.
  assert (Hold : ∀ k u, (k, u) ∈ USERS s → k ≠ NEXT_USER_ID s).
  { intros k u Hin ->. by apply Hfresh, (elem_of_keys _ u). }
  destruct Hwf as [Hu Hs Hm Hf Ha Hc Hr Hn He Hes Hd].
  split; simpl; [| | | | | |done..|].
  - intros k u [[= -> ->]|Hin]%elem_of_set.
    + repeat split; simpl; try done; lia.
    + destruct (Hu _ _ Hin) as (? & ? & ? & ?).
      repeat split; try done; lia.
  - rewrite set_fresh by done. rewrite fmap_app. simpl.
    apply sorted_snoc; [done|].
    intros k ([k' u] & -> & Hin)%list_elem_of_fmap. simpl.
    destruct (Hu _ _ Hin) as (_ & ? & _). lia.
  - assert (Hkeep : ∀ u, manager_ok (USERS s) u →
                         manager_ok (Py.set (NEXT_USER_ID s)
                            (User.mk (NEXT_USER_ID s)
                               (User.company_id admin_user) (mu_email data)
                               (mu_role data) (mu_manager_id data))
                            (USERS s)) u).
    { intros u Hok m Hm0 Hm1. destruct (Hok m Hm0 Hm1) as (mu & Hget & Hrole').
      exists mu. split; [|done]. rewrite get_set_ne; [done|].
      intros <-. by apply get_Some_elem_of, Hold in Hget. }
    intros k u [[= -> ->]|Hin]%elem_of_set.
    + apply Hkeep. intros m Hm0 Hm1. simpl in Hm0.
      unfold invalid_manager in Hmgr. rewrite Hm0 in Hmgr. simpl in Hmgr.
      rewrite bool_decide_eq_false_2 in Hmgr by done. simpl in Hmgr.
      destruct (Py.get m (USERS s)) as [mu|]; [|done].
      exists mu. split; [done|].
      apply negb_false_iff in Hmgr. by apply bool_decide_eq_true in Hmgr.
    + apply Hkeep. by apply (Hm k u).
  - intros H. by apply set_not_nil in H.
  - intros _. exists admin_user. split.
    + rewrite get_set_ne; [done|]. intros Heq. by apply (Hold _ _ Hin1).
    + destruct Ha as (a & Hget & Hrole'); [by eapply wf_users_nonempty|].
      rewrite Hadmin in Hget. by injection Hget as ->.
  - intros _. apply Hc. by eapply wf_users_nonempty.
  - intros HE. destruct (Hd HE) as [? [u3 H3]]. split; [done|].
    exists u3. rewrite get_set_ne; [done|].
    intros Heq. by apply get_Some_elem_of, Hold in H3.
Qed.

Lemma wf_configure_approval_flow data s :
  wf s → wf (fst (configure_approval_flow data s)).
Proof.
  intros Hwf. unfold configure_approval_flow.
  destruct (get_current_user _ _) as [admin_user|] eqn:Hadmin; [|done].
  destruct (negb _); [done|].
  destruct (flow_steps data) as [steps|]; [|done].
  destruct (conditional_rule data) as [rule|]; [|done].
  destruct (valid_roles steps) eqn:Hvalid; simpl; [|done].
  simpl in Hadmin. apply get_Some_elem_of in Hadmin as Hin1.
  destruct (wf_users s Hwf _ _ Hin1) as (_ & _ & _ & Hc1).
  destruct Hwf as [Hu Hs Hm Hf Ha Hc Hr Hn He Hes Hd].
  split; simpl; [done|done|done| |done|done| |done|done|done|].
  - intros Hnil. by apply wf_users_nonempty in Hin1.
  - intros c flow [[= -> ->]|Hin]%elem_of_set; [done|by apply Hr].
  - intros HE. destruct (Hd HE) as [_ H3]. split; [|done].
    rewrite Hc1, get_set_eq. by eexists.
Qed.

Lemma wf_submit_expense data s : wf s → wf (fst (submit_expense data s)).
Proof.
  intros Hwf. unfold submit_expense. cbv zeta.
  destruct (get_current_user _ _) as [current_user|] eqn:Hcur; [|done].
  destruct (negb _); [done|].
  destruct (sr_amount data), (sr_currency data), (sr_category data),
    (sr_description data), (sr_date data); try done.
  destruct (Py.get _ (APPROVAL_RULES s)) as [flow|] eqn:Hflow; [|done].
  destruct (Py.index _ _) as [first_step|]; [|done].
  destruct (negb _); [done|]. simpl.
  simpl in Hcur. apply get_Some_elem_of in Hcur as Hin3.
  destruct (wf_users s Hwf _ _ Hin3) as (Hid & _ & _ & Hc3).
  pose proof (wf_expense_keys_below s Hwf) as Hfresh.
  destruct Hwf as [Hu Hs Hm Hf Ha Hc Hr Hn He Hes Hd].
  split; simpl; [done|done|done| |done|done|done| | | |].
  - intros Hnil. by apply wf_users_nonempty in Hin3.
  - lia.
  - intros k e [[= -> ->]|Hin]%elem_of_set.
    + repeat split; simpl; try done; lia.
    + destruct (He _ _ Hin) as (? & ? & ? & ? & ?).
      repeat split; try done; lia.
  - rewrite set_fresh by done. rewrite fmap_app. simpl.
    apply sorted_snoc; [done|].
    intros k ([k' e] & -> & Hin)%list_elem_of_fmap. simpl.
    destruct (He _ _ Hin) as (_ & _ & ? & _). lia.
  - intros _. rewrite Hc3 in Hflow. split; by eexists.
Qed.

(** The evaluator raises nothing but the OverflowError of the threshold
    division. *)
Lemma percentage_met_raises flow_roles history threshold exn :
  percentage_met flow_roles history threshold = Py.Raise exn →
  exn = "OverflowError".
Proof.
  unfold percentage_met, Py.truediv.
  destruct (Py.float_of_int _); [|by intros [= <-]].
  case_bool_decide as Hpos; [|done].
  rewrite decide_False by lia.
  destruct (PrimFloat.is_infinity _); [|done]. by intros [= <-].
Qed.

Lemma apply_conditional_rules_raises rules company_id history exn :
  apply_conditional_rules rules company_id history = Py.Raise exn →
  exn = "OverflowError".
Proof.
  assert (Hhybrid : ∀ r fr,
    hybrid_block r fr history = Py.Raise exn → exn = "OverflowError").
  { intros r fr. unfold hybrid_block.
    destruct (_ && _ && _); [|done]. simpl.
    destruct (specific_approved _ _); [done|].
    destruct (percentage_met _ _ _) as [[]|exn'] eqn:Hmet; [done..|].
    intros [= <-]. by apply percentage_met_raises in Hmet. }
  assert (Hpercentage : ∀ r fr,
    percentage_block r fr history = Py.Raise exn → exn = "OverflowError").
  { intros r fr. unfold percentage_block.
    destruct (_ && _); [|done]. simpl.
    destruct (percentage_met _ _ _) as [[]|exn'] eqn:Hmet; [done..|].
    intros [= <-]. by apply percentage_met_raises in Hmet. }
  unfold apply_conditional_rules.
  destruct (specific_block _ _); [done|].
  destruct (percentage_block _ _ _) as [[r|]|exn'] eqn:Hp; [done| |].
  - destruct (hybrid_block _ _ _) as [[r|]|exn'] eqn:Hh; [done..|].
    intros [= <-]. by apply Hhybrid in Hh.
  - intros [= <-]. by apply Hpercentage in Hp.
Qed.

(** The sequential flow, for a company that has a flow and a claim whose
    step counter is at least 1: the next step is the entry of the step
    list at index [current_step] (the steps count from 1, the list from
    0), and nothing is raised. *)
Lemma advance_to_next_step_explicit k approver e s flow :
  Py.get (User.company_id approver) (APPROVAL_RULES s) = Some flow →
  1 ≤ Expense.current_step e →
  ∃ e',
    fst (advance_to_next_step k approver e s) = store_expense k e' s
    ∧ submitted_fields e' = submitted_fields e
    ∧ match Py.index (Flow.steps flow) (Expense.current_step e) with
      | None =>
          snd (advance_to_next_step k approver e s)
          = message "Expense **Fully Approved**!" 200
          ∧ decision_fields e'
            = ("Approved", Expense.current_step e, None,
               Expense.approvals_history e)
      | Some next_step =>
          match find_user_by_role (USERS s) (User.company_id approver)
                                  (Step.role next_step) with
          | Some next_user =>
              snd (advance_to_next_step k approver e s)
              = jsonify
                  [("message", JStr "Expense approved. Routed to next approver.");
                   ("next_approver_role", JStr (Step.role next_step));
                   ("next_approver_id", JInt (User.id next_user))]
                  200
              ∧ decision_fields e'
                = (Expense.status e, Expense.current_step e + 1,
                   Some (User.id next_user), Expense.approvals_history e)
          | None =>
              snd (advance_to_next_step k approver e s)
              = message ("Expense approved, but could not find a user for role "
                           ++ Step.role next_step ++ ". Approval Halted.") 200
              ∧ decision_fields e'
                = ("Approval Halted", Expense.current_step e + 1, None,
                   Expense.approvals_history e)
          end
      end.
Proof.
  intros Hflow Hstep. unfold advance_to_next_step. rewrite Hflow.
  destruct (decide _) as [Hlt|Hge]; simpl.
  - rewrite Z.add_simpl_r.
    assert (Hidx : is_Some (Py.index (Flow.steps flow)
                                     (Expense.current_step e))).
    { unfold Py.index. rewrite decide_True by lia.
      apply lookup_lt_is_Some. lia. }
    destruct Hidx as [next_step ->].
    destruct (find_user_by_role _ _ _) as [next_user|]; by eexists.
  - assert (Hidx : Py.index (Flow.steps flow) (Expense.current_step e) = None).
    { unfold Py.index. rewrite decide_True by lia.
      apply lookup_ge_None. lia. }
    rewrite Hidx. by eexists.
Qed.
(** What a request that passes the checks does, in a state where the
    approver's company has a flow and the claim's step counter is at
    least 1: the claim is written back once with the fields of the
    submission untouched, and status, step, approver, history and
    response are the following. *)
Lemma handle_approval_action_with_outcome
    capitalize now1 now2 k data s approver expense act flow :
  get_current_user (USERS s) (approver_id data) = Some approver →
  User.role approver ∈ APPROVER_ROLES →
  Py.get k (EXPENSES s) = Some expense →
  Expense.current_approver_id expense = Some (User.id approver) →
  action data = Some act →
  Py.get (User.company_id approver) (APPROVAL_RULES s) = Some flow →
  1 ≤ Expense.current_step expense →
  let entry :=
    Approval.mk (ById (User.id approver)) (User.role approver)
                (capitalize act) (comment data) now1 in
  let history := (Expense.approvals_history expense ++ [entry])%list in
  let r := handle_approval_action_with capitalize now1 now2 k data s in
  ∃ e',
    fst r = store_expense k e' s
    ∧ submitted_fields e' = submitted_fields expense
    ∧ (act = "reject" →
       snd r = message "Expense claim **Rejected**." 200
       ∧ decision_fields e'
         = ("Rejected", Expense.current_step expense, None, history))
    ∧ (act ≠ "reject" →
       match apply_conditional_rules (APPROVAL_RULES s)
               (User.company_id approver) history with
       | Py.Raise exn =>
           snd r = Raises exn
           ∧ decision_fields e'
             = (Expense.status expense, Expense.current_step expense,
                Some (User.id approver), history)
       | Py.Return (true, rule_message) =>
           snd r = message ("Expense **AUTO-APPROVED**! "
                              ++ default "None" rule_message) 200
           ∧ decision_fields e'
             = ("Approved", Expense.current_step expense, None,
                (history ++ [system_record rule_message now2])%list)
       | Py.Return (false, _) =>
           match Py.index (Flow.steps flow) (Expense.current_step expense) with
           | None =>
               snd r = message "Expense **Fully Approved**!" 200
               ∧ decision_fields e'
                 = ("Approved", Expense.current_step expense, None, history)
           | Some next_step =>
               match find_user_by_role (USERS s) (User.company_id approver)
                                       (Step.role next_step) with
               | Some next_user =>
                   snd r
                   = jsonify
                       [("message",
                         JStr "Expense approved. Routed to next approver.");
                        ("next_approver_role", JStr (Step.role next_step));
                        ("next_approver_id", JInt (User.id next_user))]
                       200
                   ∧ decision_fields e'
                     = (Expense.status expense,
                        Expense.current_step expense + 1,
                        Some (User.id next_user), history)
               | None =>
                   snd r
                   = message
                       ("Expense approved, but could not find a user for role "
                          ++ Step.role next_step ++ ". Approval Halted.") 200
                   ∧ decision_fields e'
                     = ("Approval Halted", Expense.current_step expense + 1,
                        None, history)
               end
           end
       end).
Proof.
  intros Hu Hr He Ha Hact Hflow Hstep entry history r. subst r.
  rewrite (handle_approval_action_with_passed _ _ _ _ _ _ _ _ _
             Hu Hr He Ha Hact).
  cbv zeta. fold entry. fold history. case_bool_decide as Hrej.
  - eexists. split; [done|]. split; [done|]. split; [done|]. done.
  - change (Expense.approvals_history (Expense.with_history history expense))
      with history.
    destruct (apply_conditional_rules _ _ _) as [[[] rule_message]|exn].
    + eexists. split; [done|]. split; [done|]. split; [done|]. done.
    + destruct (advance_to_next_step_explicit k approver
                  (Expense.with_history history expense) s flow Hflow Hstep)
        as (e' & Hfst & Hfields & Hcase).
      exists e'. split; [done|]. split; [done|]. split; [done|].
      intros _. exact Hcase.
    + eexists. split; [done|]. split; [done|]. split; [done|].
      intros _. split; [done|]. unfold decision_fields. simpl. by rewrite Ha.
Qed.

(** In short: one entry is appended, then at most the system record; the
    step counter stays or moves by one; the answer is 200 unless the
    evaluator raised. *)
Lemma handle_approval_action_effect
    now1 now2 k data s approver expense act flow :
  get_current_user (USERS s) (approver_id data) = Some approver →
  User.role approver ∈ APPROVER_ROLES →
  Py.get k (EXPENSES s) = Some expense →
  Expense.current_approver_id expense = Some (User.id approver) →
  action data = Some act →
  Py.get (User.company_id approver) (APPROVAL_RULES s) = Some flow →
  1 ≤ Expense.current_step expense →
  ∃ e' tail,
    fst (handle_approval_action now1 now2 k data s) = store_expense k e' s
    ∧ submitted_fields e' = submitted_fields expense
    ∧ Expense.approvals_history e'
      = (Expense.approvals_history expense
           ++ Approval.mk (ById (User.id approver)) (User.role approver)
                          (Py.capitalize act) (comment data) now1
           :: tail)%list
    ∧ (length tail ≤ 1)%nat
    ∧ Expense.current_step expense ≤ Expense.current_step e'
      ≤ Expense.current_step expense + 1
    ∧ (snd (handle_approval_action now1 now2 k data s) = Raises "OverflowError"
       ∨ ∃ resp, snd (handle_approval_action now1 now2 k data s) = Returns resp
                 ∧ code resp = 200).
Proof.
  intros Hu Hr He Ha Hact Hflow Hstep.
  destruct (handle_approval_action_with_outcome Py.capitalize now1 now2 k data
              s approver expense act flow Hu Hr He Ha Hact Hflow Hstep)
    as (e' & Hfst & Hfields & Hreject & Hother).
  fold (handle_approval_action now1 now2 k data s) in *.
  destruct (decide (act = "reject")) as [Hrej|Hrej].
  - destruct (Hreject Hrej) as [Hsnd [= _ Hs _ Hh]].
    exists e', []. rewrite Hsnd, Hs, Hh. repeat split; try done; try (simpl; lia).
    right. by eexists.
  - specialize (Hother Hrej).
    destruct (apply_conditional_rules _ _ _) as [[[] rule_message]|exn] eqn:Heval.
    + destruct Hother as [Hsnd [= _ Hs _ Hh]].
      exists e', [system_record rule_message now2].
      rewrite Hsnd, Hs, Hh, <- app_assoc.
      repeat split; try done; try (simpl; lia). right. by eexists.
    + destruct (Py.index _ _) as [next_step|].
      * destruct (find_user_by_role _ _ _) as [next_user|];
          destruct Hother as [Hsnd [= _ Hs _ Hh]];
          exists e', []; rewrite Hsnd, Hs, Hh;
          (repeat split; try done; try (simpl; lia)); right; by eexists.
      * destruct Hother as [Hsnd [= _ Hs _ Hh]].
        exists e', []. rewrite Hsnd, Hs, Hh.
        repeat split; try done; try (simpl; lia). right. by eexists.
    + destruct Hother as [Hsnd [= _ Hs _ Hh]].
      apply apply_conditional_rules_raises in Heval as ->.
      exists e', []. rewrite Hsnd, Hs, Hh.
      repeat split; try done; try (simpl; lia). by left.
Qed.

Lemma wf_store_expense k e e' s :
  wf s → (k, e) ∈ EXPENSES s → expense_ok (NEXT_EXPENSE_ID s) k e' →
  wf (store_expense k e' s).
Proof.
  intros [Hu Hs Hm Hf Ha Hc Hr Hn He Hes Hd] Hin Hok.
  assert (HE : EXPENSES s ≠ []).
  { intros HE. rewrite HE in Hin. by apply not_elem_of_nil in Hin. }
  split; simpl; [done|done|done| |done|done|done|done| | |].
  - intros Hnil. destruct (Hd HE) as [_ [u3 H3]]. by rewrite Hnil in H3.
  - intros k' e'' [[= -> ->]|Hin']%elem_of_set; [done|by apply He].
  - rewrite set_present; [done|]. by apply (elem_of_keys _ e).
  - intros _. by apply Hd.
Qed.

(** In a well-formed state the company of every user has a flow as soon
    as a claim is stored. *)
Lemma wf_flow_of_approver s uid approver k e :
  wf s → get_current_user (USERS s) uid = Some approver →
  (k, e) ∈ EXPENSES s →
  is_Some (Py.get (User.company_id approver) (APPROVAL_RULES s)).
Proof.
  intros Hwf Hu Hin. destruct uid as [aid|]; [|done]. simpl in Hu.
  apply get_Some_elem_of in Hu.
  destruct (wf_users s Hwf _ _ Hu) as (_ & _ & _ & ->).
  apply (wf_needs s Hwf). intros Hnil. rewrite Hnil in Hin.
  by apply not_elem_of_nil in Hin.
Qed.

Lemma wf_handle_approval_action now1 now2 k data s :
  wf s → wf (fst (handle_approval_action now1 now2 k data s)).
Proof.
  intros Hwf.
  destruct (handle_approval_action_cases now1 now2 k data s)
    as [[-> _]|(approver & expense & act & Hu & Hr & He & Ha & Hact)]; [done|].
  apply get_Some_elem_of in He as Hin.
  destruct (wf_flow_of_approver s _ _ _ _ Hwf Hu Hin) as [flow Hflow].
  destruct (wf_expenses s Hwf _ _ Hin) as (Hid & Huid & Hk & Hstep & Hlen).
  destruct (handle_approval_action_effect now1 now2 k data s approver expense
              act flow Hu Hr He Ha Hact Hflow Hstep)
    as (e' & tail & -> & [= Hf1 Hf2 _ _ _ _ _] & Hh & _ & Hsteps & _).
  apply (wf_store_expense k expense); [done|done|].
  repeat split; try congruence; try lia.
  rewrite Hh, length_app. simpl. lia.
Qed.

Lemma wf_handle r s : wf s → wf (fst (handle r s)).
Proof.
  intros Hwf. destruct r; simpl.
  - by apply wf_signup.
  - by apply wf_manage_user.
  - by apply wf_configure_approval_flow.
  - by apply wf_submit_expense.
  - by apply wf_handle_approval_action.
Qed.

Lemma reachable_wf s : reachable s → wf s.
Proof.
  induction 1 as [|s r Hs IH]; [apply wf_initial|]. by apply wf_handle.
Qed.

(** In a reachable state a claim whose current approver is the sender is
    'Submitted', its step counter is at least 1 and the sender's company
    has a flow. *)
Lemma reachable_claim_ready s uid approver k expense :
  reachable s →
  get_current_user (USERS s) uid = Some approver →
  Py.get k (EXPENSES s) = Some expense →
  Expense.current_approver_id expense = Some (User.id approver) →
  is_Some (Py.get (User.company_id approver) (APPROVAL_RULES s))
  ∧ 1 ≤ Expense.current_step expense
  ∧ Expense.status expense = "Submitted".
Proof.
  intros Hs Hu He%get_Some_elem_of Ha.
  pose proof (reachable_wf s Hs) as Hwf.
  split; [by apply (wf_flow_of_approver s uid approver k expense)|].
  split; [by destruct (wf_expenses s Hwf _ _ He) as (_ & _ & _ & ? & _)|].
  apply (reachable_claims_ok s Hs k expense He). rewrite Ha. by eexists.
Qed.

(** ** Which action strings reject *)

(** C10: take a request that passes the checks, on a claim that is
    'Submitted' with a step counter of at least 1, in a company that has
    a flow (as is every claim that waits for the sender in the states the
    server reaches, [reachable_claim_ready]).  Whatever the action string
    and whatever [action.capitalize()] gives for it, the handler appends
    one entry whose decision is the capitalized action string and writes
    the claim back with the fields of the submission untouched.  For
    'reject' the
    claim becomes 'Rejected' with no approver.  For any other string the
    approval path is taken: the evaluator runs on the new history; when
    it raises, the exception escapes and the claim keeps the entry; when
    a rule fires, the claim is 'Approved' and the system record is
    appended; otherwise the claim moves to the next step of the list and
    to the first user of that step's role, halts when there is none, and
    is 'Approved' when no step is left.  So the claim is 'Rejected' after
    the call exactly when the action is the lowercase string 'reject'. *)
Theorem only_reject_rejects
    capitalize now1 now2 expense_id data s approver expense act flow :
  get_current_user (USERS s) (approver_id data) = Some approver →
  User.role approver ∈ APPROVER_ROLES →
  Py.get expense_id (EXPENSES s) = Some expense →
  Expense.current_approver_id expense = Some (User.id approver) →
  action data = Some act →
  Py.get (User.company_id approver) (APPROVAL_RULES s) = Some flow →
  1 ≤ Expense.current_step expense →
  Expense.status expense = "Submitted" →
  let entry :=
    Approval.mk (ById (User.id approver)) (User.role approver)
                (capitalize act) (comment data) now1 in
  let history := (Expense.approvals_history expense ++ [entry])%list in
  let r := handle_approval_action_with capitalize now1 now2 expense_id data s in
  ∃ e',
    fst r = store_expense expense_id e' s
    ∧ submitted_fields e' = submitted_fields expense
    ∧ (Expense.status e' = "Rejected" ↔ act = "reject")
    ∧ (act = "reject" →
       snd r = message "Expense claim **Rejected**." 200
       ∧ decision_fields e'
         = ("Rejected", Expense.current_step expense, None, history))
    ∧ (act ≠ "reject" →
       match apply_conditional_rules (APPROVAL_RULES s)
               (User.company_id approver) history with
       | Py.Raise exn =>
           snd r = Raises exn
           ∧ decision_fields e'
             = ("Submitted", Expense.current_step expense,
                Some (User.id approver), history)
       | Py.Return (true, rule_message) =>
           snd r = message ("Expense **AUTO-APPROVED**! "
                              ++ default "None" rule_message) 200
           ∧ decision_fields e'
             = ("Approved", Expense.current_step expense, None,
                (history ++ [system_record rule_message now2])%list)
       | Py.Return (false, _) =>
           match Py.index (Flow.steps flow) (Expense.current_step expense) with
           | None =>
               snd r = message "Expense **Fully Approved**!" 200
               ∧ decision_fields e'
                 = ("Approved", Expense.current_step expense, None, history)
           | Some next_step =>
               match find_user_by_role (USERS s) (User.company_id approver)
                                       (Step.role next_step) with
               | Some next_user =>
                   snd r
                   = jsonify
                       [("message",
                         JStr "Expense approved. Routed to next approver.");
                        ("next_approver_role", JStr (Step.role next_step));
                        ("next_approver_id", JInt (User.id next_user))]
                       200
                   ∧ decision_fields e'
                     = ("Submitted", Expense.current_step expense + 1,
                        Some (User.id next_user), history)
               | None =>
                   snd r
                   = message
                       ("Expense approved, but could not find a user for role "
                          ++ Step.role next_step ++ ". Approval Halted.") 200
                   ∧ decision_fields e'
                     = ("Approval Halted", Expense.current_step expense + 1,
                        None, history)
               end
           end
       end).
Proof.
  intros Hu Hr He Ha Hact Hflow Hstep Hsub entry history r.
  destruct (handle_approval_action_with_outcome capitalize now1 now2
              expense_id data s approver expense act flow
              Hu Hr He Ha Hact Hflow Hstep)
    as (e' & Hfst & Hfields & Hreject & Hother).
  fold entry history r in Hfst, Hreject, Hother.
  rewrite Hsub in Hother.
  exists e'. split; [done|]. split; [done|]. split; [|by split].
  destruct (decide (act = "reject")) as [Hrej|Hrej].
  - destruct (Hreject Hrej) as [_ [= -> _ _ _]]. done.
  - specialize (Hother Hrej). split; [|done]. intros Hst.
    destruct (apply_conditional_rules _ _ _) as [[[] rule_message]|exn].
    + destruct Hother as [_ [= Hs _ _ _]]. by rewrite Hs in Hst.
    + destruct (Py.index _ _) as [next_step|].
      * destruct (find_user_by_role _ _ _) as [next_user|];
          destruct Hother as [_ [= Hs _ _ _]]; by rewrite Hs in Hst.
      * destruct Hother as [_ [= Hs _ _ _]]. by rewrite Hs in Hst.
    + destruct Hother as [_ [= Hs _ _ _]]. by rewrite Hs in Hst.
Qed.

Lemma only_reject_rejects_witness :
  let entry :=
    Approval.mk (ById (User.id demo_manager)) (User.role demo_manager)
                (Py.capitalize "REJECT") (comment (act_as 2 "REJECT")) "t1" in
  let history :=
    (Expense.approvals_history scenario_A_new_claim ++ [entry])%list in
  let r :=
    handle_approval_action_with Py.capitalize "t1" "t2" 1 (act_as 2 "REJECT")
                                scenario_A_submitted in
  ∃ e',
    fst r = store_expense 1 e' scenario_A_submitted
    ∧ submitted_fields e' = submitted_fields scenario_A_new_claim
    ∧ (Expense.status e' = "Rejected" ↔ "REJECT" = "reject")
    ∧ ("REJECT" = "reject" →
       snd r = message "Expense claim **Rejected**." 200
       ∧ decision_fields e'
         = ("Rejected", Expense.current_step scenario_A_new_claim, None,
            history))
    ∧ ("REJECT" ≠ "reject" →
       match apply_conditional_rules (APPROVAL_RULES scenario_A_submitted)
               (User.company_id demo_manager) history with
       | Py.Raise exn =>
           snd r = Raises exn
           ∧ decision_fields e'
             = ("Submitted", Expense.current_step scenario_A_new_claim,
                Some (User.id demo_manager), history)
       | Py.Return (true, rule_message) =>
           snd r = message ("Expense **AUTO-APPROVED**! "
                              ++ default "None" rule_message) 200
           ∧ decision_fields e'
             = ("Approved", Expense.current_step scenario_A_new_claim, None,
                (history ++ [system_record rule_message "t2"])%list)
       | Py.Return (false, _) =>
           match Py.index (Flow.steps main_flow)
                          (Expense.current_step scenario_A_new_claim) with
           | None =>
               snd r = message "Expense **Fully Approved**!" 200
               ∧ decision_fields e'
                 = ("Approved", Expense.current_step scenario_A_new_claim,
                    None, history)
           | Some next_step =>
               match find_user_by_role (USERS scenario_A_submitted)
                                       (User.company_id demo_manager)
                                       (Step.role next_step) with
               | Some next_user =>
                   snd r
                   = jsonify
                       [("message",
                         JStr "Expense approved. Routed to next approver.");
                        ("next_approver_role", JStr (Step.role next_step));
                        ("next_approver_id", JInt (User.id next_user))]
                       200
                   ∧ decision_fields e'
                     = ("Submitted",
                        Expense.current_step scenario_A_new_claim + 1,
                        Some (User.id next_user), history)
               | None =>
                   snd r
                   = message
                       ("Expense approved, but could not find a user for role "
                          ++ Step.role next_step ++ ". Approval Halted.") 200
                   ∧ decision_fields e'
                     = ("Approval Halted",
                        Expense.current_step scenario_A_new_claim + 1,
                        None, history)
               end
           end
       end).
Proof.
  apply (only_reject_rejects Py.capitalize "t1" "t2" 1 (act_as 2 "REJECT")
           scenario_A_submitted demo_manager scenario_A_new_claim "REJECT"
           main_flow);
    [reflexivity | in_list | reflexivity | reflexivity | reflexivity
    | reflexivity | simpl; lia | reflexivity].
Defined.

(** * Further properties of the routes *)

(** ** The user registry *)

(** X1: in every reachable state a stored user sits under its own id,
    ids run from 1 up to the counter and are not repeated (a lookup of
    the id returns the user), the role is one of ROLES, the company is
    company 1, and a manager reference other than None or 0 names a
    stored user whose role is Manager or Admin. *)
Theorem reachable_users_well_formed s k u :
  reachable s → (k, u) ∈ USERS s →
  User.id u = k ∧ 1 ≤ k < NEXT_USER_ID s
  ∧ Py.get k (USERS s) = Some u
  ∧ User.role u ∈ ROLES ∧ User.company_id u = 1
  ∧ (∀ m, User.manager_id u = Some m → m ≠ 0 →
          ∃ mu, Py.get m (USERS s) = Some mu
                ∧ User.role mu ∈ ["Manager"; "Admin"]).
Proof.
  intros Hs Hin. pose proof (reachable_wf s Hs) as Hwf.
  destruct (wf_users s Hwf k u Hin) as (? & ? & ? & ?).
  repeat split; try done; try lia.
  - apply sorted_elem_of_get; [apply (wf_sorted s Hwf)|done].
  - apply (wf_managers s Hwf k u Hin).
Qed.

Lemma reachable_users_well_formed_witness :
  User.id demo_employee = 3 ∧ 1 ≤ 3 < NEXT_USER_ID main_state
  ∧ Py.get 3 (USERS main_state) = Some demo_employee
  ∧ User.role demo_employee ∈ ROLES ∧ User.company_id demo_employee = 1
  ∧ (∀ m, User.manager_id demo_employee = Some m → m ≠ 0 →
          ∃ mu, Py.get m (USERS main_state) = Some mu
                ∧ User.role mu ∈ ["Manager"; "Admin"]).
Proof.
  apply (reachable_users_well_formed main_state 3 demo_employee).
  - apply main_state_reachable.
  - by apply get_Some_elem_of.
Defined.

(** In a dictionary of users with increasing keys, each stored under its
    id, the first match of a search is the match with the smallest id. *)
Lemma find_first_smallest (P : User.t → bool) (d : Py.dict User.t) u :
  StronglySorted Z.lt (d.*1) →
  (∀ k v, (k, v) ∈ d → User.id v = k) →
  List.find P (Py.values d) = Some u →
  (User.id u, u) ∈ d ∧ P u = true
  ∧ ∀ k v, (k, v) ∈ d → P v = true → User.id u ≤ k.
Proof.
  induction d as [|[k0 v0] d IH]; simpl; [done|].
  intros [Hall Hs]%StronglySorted_cons Hid.
  destruct (P v0) eqn:HP.
  - intros [= <-]. rewrite (Hid k0 v0) by apply list_elem_of_here.
    split; [apply list_elem_of_here|]. split; [done|].
    intros k v [[= -> ->]|Hin]%elem_of_cons _; [lia|].
    rewrite Forall_forall in Hall.
    assert (k0 < k) by (apply Hall, list_elem_of_fmap; by exists (k, v)).
    lia.
  - intros Hfind. destruct IH as (Hin & HPu & Hmin); [done| |done|].
    { intros k v Hkv. apply Hid. by apply list_elem_of_further. }
    split; [by apply list_elem_of_further|]. split; [done|].
    intros k v [[= -> ->]|Hkv]%elem_of_cons HPv; [congruence|].
    by apply (Hmin k v).
Qed.

(** X2: in every reachable state [find_user_by_role] returns the stored
    user with the smallest id among those of the given company and role,
    and None exactly when no stored user has that company and role. *)
Theorem find_user_by_role_smallest_id s company_id role :
  reachable s →
  match find_user_by_role (USERS s) company_id role with
  | Some u =>
      Py.get (User.id u) (USERS s) = Some u
      ∧ User.company_id u = company_id ∧ User.role u = role
      ∧ ∀ k v, (k, v) ∈ USERS s → User.company_id v = company_id →
               User.role v = role → User.id u ≤ k
  | None =>
      ∀ k v, (k, v) ∈ USERS s →
             ¬ (User.company_id v = company_id ∧ User.role v = role)
  end.
Proof.
  intros Hs. pose proof (reachable_wf s Hs) as Hwf.
  unfold find_user_by_role.
  destruct (List.find _ _) as [u|] eqn:Hfind.
  - destruct (find_first_smallest _ _ _ (wf_sorted s Hwf)
                (λ k v Hin, proj1 (wf_users s Hwf k v Hin)) Hfind)
      as (Hin & HP & Hmin).
    apply andb_true_iff in HP as [?%bool_decide_eq_true ?%bool_decide_eq_true].
    split; [by apply sorted_elem_of_get; [apply (wf_sorted s Hwf)|]|].
    split; [done|]. split; [done|].
    intros k v Hkv Hc Hr. apply (Hmin k v Hkv).
    by rewrite !bool_decide_eq_true_2.
  - intros k v Hkv [Hc Hr].
    assert (Hv : In v (Py.values (USERS s))).
    { apply list_elem_of_In, list_elem_of_fmap. by exists (k, v). }
    pose proof (find_none _ _ Hfind v Hv) as Hnone. simpl in Hnone.
    by rewrite !bool_decide_eq_true_2 in Hnone.
Qed.

Lemma find_user_by_role_smallest_id_witness :
  match find_user_by_role (USERS main_state) 1 "Finance" with
  | Some u =>
      Py.get (User.id u) (USERS main_state) = Some u
      ∧ User.company_id u = 1 ∧ User.role u = "Finance"
      ∧ ∀ k v, (k, v) ∈ USERS main_state → User.company_id v = 1 →
               User.role v = "Finance" → User.id u ≤ k
  | None =>
      ∀ k v, (k, v) ∈ USERS main_state →
             ¬ (User.company_id v = 1 ∧ User.role v = "Finance")
  end.
Proof.
  apply (find_user_by_role_smallest_id main_state 1 "Finance").
  apply main_state_reachable.
Defined.

(** A request leaves every stored user as it is. *)
Lemma handle_users_kept r s k u :
  wf s → Py.get k (USERS s) = Some u →
  Py.get k (USERS (fst (handle r s))) = Some u.
Proof.
  intros Hwf Hget. pose proof (wf_user_keys_below s Hwf) as Hfresh.
  assert (Hne : NEXT_USER_ID s ≠ k).
  { intros <-. by apply Hfresh, (elem_of_keys _ u), get_Some_elem_of. }
  destruct r as [email|data|data|data|now1 now2 k' data]; simpl.
  - unfold signup. destruct (USERS s) as [|x l] eqn:HU; [done|].
    simpl. by rewrite HU.
  - unfold manage_user. destruct (get_current_user _ _); [|done].
    repeat (destruct (negb _); [done|]).
    destruct (invalid_manager _ _); [done|]. simpl. by rewrite get_set_ne.
  - unfold configure_approval_flow. destruct (get_current_user _ _); [|done].
    destruct (negb _); [done|].
    destruct (flow_steps data), (conditional_rule data); try done.
    by destruct (negb _).
  - unfold submit_expense. cbv zeta.
    destruct (get_current_user _ _); [|done].
    destruct (negb _); [done|].
    destruct (sr_amount data), (sr_currency data), (sr_category data),
      (sr_description data), (sr_date data); try done.
    destruct (Py.get _ (APPROVAL_RULES s)); [|done].
    destruct (Py.index _ _); [|done]. by destruct (negb _).
  - destruct (handle_approval_action_cases now1 now2 k' data s)
      as [[-> _]|(approver & expense & act & Hu & Hr & He & Ha & Hact)];
      [done|].
    by destruct (handle_approval_action_result now1 now2 _ _ _ _ _ _
                   Hu Hr He Ha Hact) as (e' & tail & -> & _).
Qed.

(** X3: users are never changed or removed: a user stored in a reachable
    state is found under the same id, with the same role, manager and
    company, after any further requests. *)
Theorem users_persist s k u rs :
  reachable s → Py.get k (USERS s) = Some u →
  Py.get k (USERS (run rs s)) = Some u.
Proof.
  intros Hs%reachable_wf. revert s Hs.
  induction rs as [|r rs IH]; intros s Hwf Hget; simpl; [done|].
  apply IH; [by apply wf_handle|by apply handle_users_kept].
Qed.

Lemma users_persist_witness :
  Py.get 3 (USERS (run [ManageUser (mkManageUser "x@company.com" "Admin"
                                                 (Some 3));
                        SubmitExpense demo_submit]
                       main_state))
  = Some demo_employee.
Proof.
  apply (users_persist main_state 3 demo_employee).
  - apply main_state_reachable.
  - reflexivity.
Defined.

(** ** The claims *)

(** X4: in every reachable state a stored claim sits under its own id
    (a lookup of the id returns it), ids run from 1 up to the counter,
    the submitter is user 3, who is stored, the company has a flow, the
    step counter is at least 1, and every step passed left an entry in
    the history. *)
Theorem reachable_claims_well_formed s k e :
  reachable s → (k, e) ∈ EXPENSES s →
  Expense.id e = k ∧ 1 ≤ k < NEXT_EXPENSE_ID s
  ∧ Py.get k (EXPENSES s) = Some e
  ∧ Expense.user_id e = 3 ∧ is_Some (Py.get 3 (USERS s))
  ∧ is_Some (Py.get 1 (APPROVAL_RULES s))
  ∧ 1 ≤ Expense.current_step e
  ∧ Expense.current_step e - 1
    ≤ Z.of_nat (length (Expense.approvals_history e)).
Proof.
  intros Hs Hin. pose proof (reachable_wf s Hs) as Hwf.
  destruct (wf_expenses s Hwf k e Hin) as (? & ? & ? & ? & ?).
  destruct (wf_needs s Hwf) as [? ?].
  { intros HE. rewrite HE in Hin. by apply not_elem_of_nil in Hin. }
  repeat split; try done; try lia.
  apply sorted_elem_of_get; [apply (wf_claims_sorted s Hwf)|done].
Qed.

Lemma reachable_claims_well_formed_witness :
  Expense.id scenario_A_claim = 1 ∧ 1 ≤ 1 < NEXT_EXPENSE_ID scenario_A_done
  ∧ Py.get 1 (EXPENSES scenario_A_done) = Some scenario_A_claim
  ∧ Expense.user_id scenario_A_claim = 3
  ∧ is_Some (Py.get 3 (USERS scenario_A_done))
  ∧ is_Some (Py.get 1 (APPROVAL_RULES scenario_A_done))
  ∧ 1 ≤ Expense.current_step scenario_A_claim
  ∧ Expense.current_step scenario_A_claim - 1
    ≤ Z.of_nat (length (Expense.approvals_history scenario_A_claim)).
Proof.
  apply (reachable_claims_well_formed scenario_A_done 1 scenario_A_claim).
  - apply scenario_A_done_reachable.
  - rewrite scenario_A_done_expenses. apply list_elem_of_here.
Defined.

(** One request keeps a stored claim under its id, with the fields of
    the submission, a history that only grows and a step counter that
    does not go back. *)
Lemma handle_claim_kept r s k e :
  wf s → Py.get k (EXPENSES s) = Some e →
  ∃ e' tail,
    Py.get k (EXPENSES (fst (handle r s))) = Some e'
    ∧ submitted_fields e' = submitted_fields e
    ∧ Expense.approvals_history e'
      = (Expense.approvals_history e ++ tail)%list
    ∧ Expense.current_step e ≤ Expense.current_step e'.
Proof.
  intros Hwf Hget.
  assert (Hsame : ∀ s', EXPENSES s' = EXPENSES s →
    ∃ e' tail, Py.get k (EXPENSES s') = Some e'
      ∧ submitted_fields e' = submitted_fields e
      ∧ Expense.approvals_history e'
        = (Expense.approvals_history e ++ tail)%list
      ∧ Expense.current_step e ≤ Expense.current_step e').
  { intros s' ->. exists e, []. rewrite app_nil_r. by repeat split. }
  destruct r as [email|data|data|data|now1 now2 k' data]; simpl.
  - apply Hsame, signup_expenses.
  - apply Hsame, manage_user_expenses.
  - apply Hsame, configure_approval_flow_expenses.
  - destruct (submit_expense_cases data s) as [->|(e0 & HE & _)];
      [by apply Hsame|].
    exists e, []. rewrite HE, app_nil_r. split; [|done].
    rewrite get_set_ne; [done|]. intros <-.
    by apply (wf_expense_keys_below s Hwf), (elem_of_keys _ e),
      get_Some_elem_of.
  - destruct (handle_approval_action_cases now1 now2 k' data s)
      as [[-> _]|(approver & expense & act & Hu & Hr & He & Ha & Hact)];
      [by apply Hsame|].
    apply get_Some_elem_of in He as Hin.
    destruct (wf_flow_of_approver s _ _ _ _ Hwf Hu Hin) as [flow Hflow].
    destruct (wf_expenses s Hwf _ _ Hin) as (_ & _ & _ & Hstep & _).
    destruct (handle_approval_action_effect now1 now2 k' data s approver
                expense act flow Hu Hr He Ha Hact Hflow Hstep)
      as (e' & tail & -> & Hfields & Hh & _ & Hsteps & _).
    simpl. destruct (decide (k' = k)) as [->|Hne].
    + rewrite get_set_eq. rewrite Hget in He. injection He as <-.
      exists e', (Approval.mk (ById (User.id approver)) (User.role approver)
                              (Py.capitalize act) (comment data) now1 :: tail).
      split; [done|]. split; [done|]. split; [done|lia].
    + rewrite get_set_ne by done. exists e, []. rewrite app_nil_r.
      by repeat split.
Qed.

(** X5: claims are never removed, their id, submitter, amount, currency,
    category, description and date never change, their history only
    grows at the end, and their step counter never goes back, whatever
    requests follow. *)
Theorem claims_persist s k e rs :
  reachable s → Py.get k (EXPENSES s) = Some e →
  ∃ e' tail,
    Py.get k (EXPENSES (run rs s)) = Some e'
    ∧ submitted_fields e' = submitted_fields e
    ∧ Expense.approvals_history e'
      = (Expense.approvals_history e ++ tail)%list
    ∧ Expense.current_step e ≤ Expense.current_step e'.
Proof.
  intros Hs%reachable_wf. revert s e Hs.
  induction rs as [|r rs IH]; intros s e Hwf Hget; simpl.
  - exists e, []. rewrite app_nil_r. by repeat split.
  - destruct (handle_claim_kept r s k e Hwf Hget)
      as (e1 & tail1 & Hget1 & Hf1 & Hh1 & Hs1).
    destruct (IH _ e1 (wf_handle r s Hwf) Hget1)
      as (e2 & tail2 & Hget2 & Hf2 & Hh2 & Hs2).
    exists e2, (tail1 ++ tail2)%list. split; [done|].
    split; [congruence|]. split; [|lia].
    by rewrite Hh2, Hh1, app_assoc.
Qed.

Lemma claims_persist_witness :
  ∃ e' tail,
    Py.get 1 (EXPENSES (run [ApprovalAction "t1" "t2" 1 (act_as 2 "approve");
                             SubmitExpense demo_submit]
                            scenario_A_submitted))
    = Some e'
    ∧ submitted_fields e' = submitted_fields scenario_A_new_claim
    ∧ Expense.approvals_history e'
      = (Expense.approvals_history scenario_A_new_claim ++ tail)%list
    ∧ Expense.current_step scenario_A_new_claim ≤ Expense.current_step e'.
Proof.
  apply (claims_persist scenario_A_submitted 1 scenario_A_new_claim).
  - apply (reachable_handle _ (SubmitExpense demo_submit)).
    apply main_state_reachable.
  - reflexivity.
Defined.

(** ** Signing up and the two admin routes *)

(** X6: signing up works once.  In a reachable state without users
    nothing else is stored either, and the request creates company 1,
    with the default currency, and its Admin as user 1; in every other
    reachable state the request is refused and changes nothing. *)
Theorem signup_only_once s user_email :
  reachable s →
  match USERS s with
  | [] =>
      s = initial_state
      ∧ signup user_email s
        = (mkState [(1, default_company)]
                   [(1, User.mk 1 1 user_email "Admin" None)] [] [] 2 2 1,
           jsonify
             [("message", JStr "Initial Company and Admin User auto-created successfully. Use ID 1 to manage.");
              ("user_id", JInt 1);
              ("role", JStr "Admin");
              ("company_currency", JStr "USD")]
             201)
  | _ :: _ =>
      signup user_email s
      = (s, message "Use /admin/manage_user to create other employees." 400)
  end.
Proof.
  intros Hs%reachable_wf. destruct (USERS s) as [|x l] eqn:HU.
  - rewrite (wf_fresh s Hs HU). by split.
  - unfold signup. by rewrite HU.
Qed.

Lemma signup_only_once_witness :
  match USERS main_state with
  | [] =>
      main_state = initial_state
      ∧ signup "second@company.com" main_state
        = (mkState [(1, default_company)]
                   [(1, User.mk 1 1 "second@company.com" "Admin" None)]
                   [] [] 2 2 1,
           jsonify
             [("message", JStr "Initial Company and Admin User auto-created successfully. Use ID 1 to manage.");
              ("user_id", JInt 1);
              ("role", JStr "Admin");
              ("company_currency", JStr "USD")]
             201)
  | _ :: _ =>
      signup "second@company.com" main_state
      = (main_state,
         message "Use /admin/manage_user to create other employees." 400)
  end.
Proof.
  apply (signup_only_once main_state "second@company.com").
  apply main_state_reachable.
Defined.

(** X7: as long as nobody signed up, every other route answers 403 and
    changes nothing: user 1, user 3 and the sender do not exist. *)
Theorem routes_refuse_before_signup s :
  reachable s → USERS s = [] →
  (∀ data, manage_user data s
           = (s, message "Permission denied. Requires Admin role." 403))
  ∧ (∀ data, configure_approval_flow data s
             = (s, message "Permission denied. Requires Admin role." 403))
  ∧ (∀ data, submit_expense data s
             = (s, message "Permission denied. Requires Employee role." 403))
  ∧ (∀ now1 now2 expense_id data,
       handle_approval_action now1 now2 expense_id data s
       = (s, message "Permission denied. Invalid approver ID or role." 403))
  ∧ (∀ round2 str_of_float approver_id,
       view_pending_expenses round2 str_of_float approver_id s
       = message "Permission denied. Approver role required." 403).
Proof.
  intros _ HU.
  unfold manage_user, configure_approval_flow, submit_expense,
    handle_approval_action, handle_approval_action_with,
    view_pending_expenses.
  rewrite HU. repeat split; try done.
  intros now1 now2 expense_id data. by destruct (approver_id data).
Qed.

Lemma routes_refuse_before_signup_witness :
  (∀ data, manage_user data initial_state
           = (initial_state,
              message "Permission denied. Requires Admin role." 403))
  ∧ (∀ data, configure_approval_flow data initial_state
             = (initial_state,
                message "Permission denied. Requires Admin role." 403))
  ∧ (∀ data, submit_expense data initial_state
             = (initial_state,
                message "Permission denied. Requires Employee role." 403))
  ∧ (∀ now1 now2 expense_id data,
       handle_approval_action now1 now2 expense_id data initial_state
       = (initial_state,
          message "Permission denied. Invalid approver ID or role." 403))
  ∧ (∀ round2 str_of_float approver_id,
       view_pending_expenses round2 str_of_float approver_id initial_state
       = message "Permission denied. Approver role required." 403).
Proof.
  apply (routes_refuse_before_signup initial_state).
  - apply reachable_initial.
  - reflexivity.
Defined.

(** After the signup user 1 is the Admin of company 1, for good. *)
Lemma wf_admin_user s :
  wf s → USERS s ≠ [] →
  ∃ admin_user, get_current_user (USERS s) (Some 1) = Some admin_user
                ∧ User.role admin_user = "Admin"
                ∧ User.company_id admin_user = 1.
Proof.
  intros Hwf HU. destruct (wf_admin s Hwf HU) as (a & Hget & Hrole).
  exists a. split; [done|]. split; [done|].
  apply get_Some_elem_of in Hget.
  by destruct (wf_users s Hwf _ _ Hget) as (_ & _ & _ & ?).
Qed.

(** X8: once somebody signed up, [manage_user] is never denied.  A
    request with a role of ROLES and an acceptable manager reference
    (None, 0, or the id of a stored Manager or Admin) appends one user of
    company 1 under the next free id and touches nothing else; any other
    request is answered 400 and changes nothing. *)
Theorem manage_user_effect data s :
  reachable s → USERS s ≠ [] →
  (mu_role data ∈ ROLES
   ∧ invalid_manager (USERS s) (mu_manager_id data) = false
   ∧ manage_user data s
     = (mkState (COMPANIES s)
                (USERS s
                   ++ [(NEXT_USER_ID s,
                        User.mk (NEXT_USER_ID s) 1 (mu_email data)
                                (mu_role data) (mu_manager_id data))])%list
                (EXPENSES s) (APPROVAL_RULES s) (NEXT_COMPANY_ID s)
                (NEXT_USER_ID s + 1) (NEXT_EXPENSE_ID s),
        jsonify
          [("message", JStr (mu_role data ++ " " ++ mu_email data
                               ++ " created successfully."));
           ("user_id", JInt (NEXT_USER_ID s));
           ("manager_id", json_of_id (mu_manager_id data))]
          201))
  ∨ ((mu_role data ∉ ROLES
      ∨ invalid_manager (USERS s) (mu_manager_id data) = true)
     ∧ fst (manage_user data s) = s
     ∧ status_code (snd (manage_user data s)) = 400).
Proof.
  intros Hs%reachable_wf HU.
  destruct (wf_admin_user s Hs HU) as (admin_user & Hget & Hrole & Hcompany).
  unfold manage_user. rewrite Hget, Hrole, Hcompany.
  rewrite (bool_decide_eq_true_2 ("Admin" = "Admin")) by done. simpl.
  case_bool_decide as Hin; simpl; [|right; by auto].
  destruct (invalid_manager _ _) eqn:Hmgr; [right; by auto|].
  left. split; [done|]. split; [done|].
  by rewrite set_fresh by apply (wf_user_keys_below s Hs).
Qed.

Lemma manage_user_effect_witness :
  (mu_role (mkManageUser "second@company.com" "Finance" (Some 2)) ∈ ROLES
   ∧ invalid_manager (USERS main_state)
       (mu_manager_id (mkManageUser "second@company.com" "Finance" (Some 2)))
     = false
   ∧ manage_user (mkManageUser "second@company.com" "Finance" (Some 2))
                 main_state
     = (mkState (COMPANIES main_state)
                (USERS main_state
                   ++ [(NEXT_USER_ID main_state,
                        User.mk (NEXT_USER_ID main_state) 1
                          (mu_email (mkManageUser "second@company.com"
                                                  "Finance" (Some 2)))
                          (mu_role (mkManageUser "second@company.com"
                                                 "Finance" (Some 2)))
                          (mu_manager_id (mkManageUser "second@company.com"
                                                       "Finance" (Some 2))))])%list
                (EXPENSES main_state) (APPROVAL_RULES main_state)
                (NEXT_COMPANY_ID main_state)
                (NEXT_USER_ID main_state + 1) (NEXT_EXPENSE_ID main_state),
        jsonify
          [("message",
            JStr (mu_role (mkManageUser "second@company.com" "Finance"
                                        (Some 2))
                    ++ " "
                    ++ mu_email (mkManageUser "second@company.com" "Finance"
                                              (Some 2))
                    ++ " created successfully."));
           ("user_id", JInt (NEXT_USER_ID main_state));
           ("manager_id",
            json_of_id (mu_manager_id (mkManageUser "second@company.com"
                                                    "Finance" (Some 2))))]
          201))
  ∨ ((mu_role (mkManageUser "second@company.com" "Finance" (Some 2)) ∉ ROLES
      ∨ invalid_manager (USERS main_state)
          (mu_manager_id (mkManageUser "second@company.com" "Finance"
                                       (Some 2)))
        = true)
     ∧ fst (manage_user (mkManageUser "second@company.com" "Finance" (Some 2))
                        main_state)
       = main_state
     ∧ status_code
         (snd (manage_user (mkManageUser "second@company.com" "Finance"
                                         (Some 2)) main_state))
       = 400).
Proof.
  apply (manage_user_effect
           (mkManageUser "second@company.com" "Finance" (Some 2)) main_state).
  - apply main_state_reachable.
  - discriminate.
Defined.

(** X9: once somebody signed up, [configure_approval_flow] is never
    denied.  A request with both keys and step roles of ROLES replaces
    the flow of company 1 as a whole (the rule is stored unchecked), so
    that a lookup returns what was sent, and leaves users and claims,
    pending ones included, as they are; any other request is answered
    400 and changes nothing. *)
Theorem configure_approval_flow_effect data s :
  reachable s → USERS s ≠ [] →
  match flow_steps data, conditional_rule data with
  | Some steps, Some rule =>
      if valid_roles steps
      then
        configure_approval_flow data s
        = (mkState (COMPANIES s) (USERS s) (EXPENSES s)
                   (Py.set 1 (Flow.mk steps rule) (APPROVAL_RULES s))
                   (NEXT_COMPANY_ID s) (NEXT_USER_ID s) (NEXT_EXPENSE_ID s),
           jsonify
             [("message", JStr "Approval flow configured successfully.");
              ("steps_count", JInt (Z.of_nat (length steps)))]
             201)
        ∧ Py.get 1 (APPROVAL_RULES (fst (configure_approval_flow data s)))
          = Some (Flow.mk steps rule)
      else
        configure_approval_flow data s
        = (s, message "One or more roles in flow_steps are invalid." 400)
  | _, _ =>
      configure_approval_flow data s
      = (s, message "Missing 'flow_steps' or 'conditional_rule' in request."
                    400)
  end.
Proof.
  intros Hs%reachable_wf HU.
  destruct (wf_admin_user s Hs HU) as (admin_user & Hget & Hrole & Hcompany).
  unfold configure_approval_flow. rewrite Hget, Hrole, Hcompany.
  rewrite (bool_decide_eq_true_2 ("Admin" = "Admin")) by done. simpl.
  destruct (flow_steps data) as [steps|]; [|done].
  destruct (conditional_rule data) as [rule|]; [|done].
  destruct (valid_roles steps); simpl; [|done].
  split; [done|]. apply get_set_eq.
Qed.

Lemma configure_approval_flow_effect_witness :
  match flow_steps (mkApprovalFlow (Some finance_director) (Some Rule.empty)),
        conditional_rule
          (mkApprovalFlow (Some finance_director) (Some Rule.empty)) with
  | Some steps, Some rule =>
      if valid_roles steps
      then
        configure_approval_flow
          (mkApprovalFlow (Some finance_director) (Some Rule.empty))
          scenario_A_submitted
        = (mkState (COMPANIES scenario_A_submitted)
                   (USERS scenario_A_submitted)
                   (EXPENSES scenario_A_submitted)
                   (Py.set 1 (Flow.mk steps rule)
                           (APPROVAL_RULES scenario_A_submitted))
                   (NEXT_COMPANY_ID scenario_A_submitted)
                   (NEXT_USER_ID scenario_A_submitted)
                   (NEXT_EXPENSE_ID scenario_A_submitted),
           jsonify
             [("message", JStr "Approval flow configured successfully.");
              ("steps_count", JInt (Z.of_nat (length steps)))]
             201)
        ∧ Py.get 1
            (APPROVAL_RULES
               (fst (configure_approval_flow
                       (mkApprovalFlow (Some finance_director)
                                       (Some Rule.empty))
                       scenario_A_submitted)))
          = Some (Flow.mk steps rule)
      else
        configure_approval_flow
          (mkApprovalFlow (Some finance_director) (Some Rule.empty))
          scenario_A_submitted
        = (scenario_A_submitted,
           message "One or more roles in flow_steps are invalid." 400)
  | _, _ =>
      configure_approval_flow
        (mkApprovalFlow (Some finance_director) (Some Rule.empty))
        scenario_A_submitted
      = (scenario_A_submitted,
         message "Missing 'flow_steps' or 'conditional_rule' in request."
                 400)
  end.
Proof.
  apply (configure_approval_flow_effect
           (mkApprovalFlow (Some finance_director) (Some Rule.empty))
           scenario_A_submitted).
  - apply (reachable_handle _ (SubmitExpense demo_submit)).
    apply main_state_reachable.
  - discriminate.
Defined.

(** ** Submitting a claim *)

(** X10: a submission either changes nothing (it is refused with 400,
    403 or 500, or IndexError escapes), or it appends exactly one claim
    under the next free id and moves the counter by one: the claim of
    user 3 with the fields sent (the currency in upper case), status
    'Submitted', step 1, an approver whose id is not 0, and an empty
    history. *)
Theorem submit_expense_effect data s :
  reachable s →
  (fst (submit_expense data s) = s
   ∧ (snd (submit_expense data s) = Raises "IndexError"
      ∨ ∃ resp, snd (submit_expense data s) = Returns resp
                ∧ code resp ∈ [400; 403; 500]))
  ∨ (∃ e a currency,
       submit_expense data s
       = (mkState (COMPANIES s) (USERS s)
                  (EXPENSES s ++ [(NEXT_EXPENSE_ID s, e)])%list
                  (APPROVAL_RULES s) (NEXT_COMPANY_ID s) (NEXT_USER_ID s)
                  (NEXT_EXPENSE_ID s + 1),
          jsonify
            [("message", JStr "Expense submitted successfully, initiating multi-step approval.");
             ("expense_id", JInt (NEXT_EXPENSE_ID s));
             ("next_approver_id", JInt a)]
            201)
       ∧ a ≠ 0
       ∧ Expense.id e = NEXT_EXPENSE_ID s
       ∧ Expense.user_id e = 3
       ∧ sr_amount data = Some (Expense.amount e)
       ∧ sr_currency data = Some currency
       ∧ (Py.isascii currency = true →
          Expense.currency e = Py.upper currency)
       ∧ sr_category data = Some (Expense.category e)
       ∧ sr_description data = Some (Expense.description e)
       ∧ sr_date data = Some (Expense.date e)
       ∧ decision_fields e = ("Submitted", 1, Some a, [])).
Proof.
  intros Hs%reachable_wf. unfold submit_expense. cbv zeta.
  destruct (get_current_user _ _) as [current_user|] eqn:Hcur;
    [|left; split; [done|]; right; eexists; split; [done|in_list]].
  destruct (negb _);
    [left; split; [done|]; right; eexists; split; [done|in_list]|].
  destruct (sr_amount data) as [amount|], (sr_currency data) as [currency|],
    (sr_category data) as [category|],
    (sr_description data) as [description|], (sr_date data) as [date|];
    try (left; split; [done|]; right; eexists; split; [done|in_list]).
  destruct (Py.get _ (APPROVAL_RULES s)) as [flow|];
    [|left; split; [done|]; right; eexists; split; [done|in_list]].
  destruct (Py.index _ _) as [first_step|]; [|left; split; [done|]; by left].
  destruct (first_step_approver _ _ _) as [a|]; simpl;
    [|left; split; [done|]; right; eexists; split; [done|in_list]].
  case_bool_decide as Hzero; simpl;
    [left; split; [done|]; right; eexists; split; [done|in_list]|].
  right. eexists _, a, currency.
  rewrite set_fresh by apply (wf_expense_keys_below s Hs).
  split; [done|]. simpl in Hcur. apply get_Some_elem_of in Hcur.
  destruct (wf_users s Hs _ _ Hcur) as (-> & _).
  by repeat split.
Qed.

Lemma submit_expense_effect_witness :
  (fst (submit_expense demo_submit main_state) = main_state
   ∧ (snd (submit_expense demo_submit main_state) = Raises "IndexError"
      ∨ ∃ resp, snd (submit_expense demo_submit main_state) = Returns resp
                ∧ code resp ∈ [400; 403; 500]))
  ∨ (∃ e a currency,
       submit_expense demo_submit main_state
       = (mkState (COMPANIES main_state) (USERS main_state)
                  (EXPENSES main_state
                     ++ [(NEXT_EXPENSE_ID main_state, e)])%list
                  (APPROVAL_RULES main_state) (NEXT_COMPANY_ID main_state)
                  (NEXT_USER_ID main_state)
                  (NEXT_EXPENSE_ID main_state + 1),
          jsonify
            [("message", JStr "Expense submitted successfully, initiating multi-step approval.");
             ("expense_id", JInt (NEXT_EXPENSE_ID main_state));
             ("next_approver_id", JInt a)]
            201)
       ∧ a ≠ 0
       ∧ Expense.id e = NEXT_EXPENSE_ID main_state
       ∧ Expense.user_id e = 3
       ∧ sr_amount demo_submit = Some (Expense.amount e)
       ∧ sr_currency demo_submit = Some currency
       ∧ (Py.isascii currency = true →
          Expense.currency e = Py.upper currency)
       ∧ sr_category demo_submit = Some (Expense.category e)
       ∧ sr_description demo_submit = Some (Expense.description e)
       ∧ sr_date demo_submit = Some (Expense.date e)
       ∧ decision_fields e = ("Submitted", 1, Some a, [])).
Proof.
  apply (submit_expense_effect demo_submit main_state).
  apply main_state_reachable.
Defined.

(** X11: [configure_approval_flow] accepts an empty step list (all of
    its roles are valid), and from then on every submission that carries
    the five fields ends in IndexError, on [flow_steps[0]], and stores
    nothing. *)
Theorem empty_flow_breaks_submission s rule data employee :
  reachable s →
  Py.get 3 (USERS s) = Some employee → User.role employee = "Employee" →
  is_Some (sr_amount data) → is_Some (sr_currency data) →
  is_Some (sr_category data) → is_Some (sr_description data) →
  is_Some (sr_date data) →
  let configured :=
    configure_approval_flow (mkApprovalFlow (Some []) (Some rule)) s in
  status_code (snd configured) = 201
  ∧ submit_expense data (fst configured) = (fst configured, Raises "IndexError").
Proof.
  intros Hs%reachable_wf Hget Hrole [amount Ha] [currency Hc] [category Hca]
    [description Hd] [date Hda] configured. subst configured.
  assert (HU : USERS s ≠ []).
  { intros HU. by rewrite HU in Hget. }
  destruct (wf_admin_user s Hs HU) as (admin_user & Hadmin & Hr & Hcompany).
  apply get_Some_elem_of in Hget as Hin.
  destruct (wf_users s Hs _ _ Hin) as (_ & _ & _ & Hc3).
  unfold configure_approval_flow. rewrite Hadmin, Hr, Hcompany.
  rewrite (bool_decide_eq_true_2 ("Admin" = "Admin")) by done. simpl.
  split; [done|].
  unfold submit_expense. simpl. rewrite Hget, Hrole.
  rewrite (bool_decide_eq_true_2 ("Employee" = "Employee")) by done. simpl.
  rewrite Ha, Hc, Hca, Hd, Hda, Hc3, get_set_eq. done.
Qed.

Lemma empty_flow_breaks_submission_witness :
  let configured :=
    configure_approval_flow (mkApprovalFlow (Some []) (Some Rule.empty))
                            main_state in
  status_code (snd configured) = 201
  ∧ submit_expense demo_submit (fst configured)
    = (fst configured, Raises "IndexError").
Proof.
  apply (empty_flow_breaks_submission main_state Rule.empty demo_submit
           demo_employee);
    [apply main_state_reachable | reflexivity | reflexivity
    | by eexists | by eexists | by eexists | by eexists | by eexists].
Defined.

(** ** What an action can answer *)

(** X12: in a reachable state an action request has four possible
    ends.  It is stopped by a check, answers 403 or 404 and changes
    nothing.  Or its payload has no 'action' key and AttributeError
    escapes, again without a change.  Or it answers 200.  Or the
    evaluator raises OverflowError.  The lookups of the sequential flow,
    [APPROVAL_RULES[company_id]] and [flow[current_step - 1]], never
    fail. *)
Theorem action_outcomes now1 now2 expense_id data s :
  reachable s →
  let r := handle_approval_action now1 now2 expense_id data s in
  (fst r = s
   ∧ ((∃ resp, snd r = Returns resp ∧ code resp ∈ [403; 404])
      ∨ (action data = None ∧ snd r = Raises "AttributeError")))
  ∨ (∃ resp, snd r = Returns resp ∧ code resp = 200)
  ∨ snd r = Raises "OverflowError".
Proof.
  intros Hs%reachable_wf r. subst r.
  destruct (get_current_user (USERS s) (approver_id data))
    as [approver|] eqn:Hu.
  2:{ left. unfold handle_approval_action, handle_approval_action_with.
      rewrite Hu. split; [done|]. left. eexists. split; [done|in_list]. }
  destruct (bool_decide (User.role approver ∈ APPROVER_ROLES)) eqn:Hr.
  2:{ left. unfold handle_approval_action, handle_approval_action_with.
      rewrite Hu, Hr. split; [done|]. left. eexists. split; [done|in_list]. }
  destruct (Py.get expense_id (EXPENSES s)) as [expense|] eqn:He.
  2:{ left. unfold handle_approval_action, handle_approval_action_with.
      rewrite Hu, Hr, He. split; [done|]. left. eexists.
      split; [done|in_list]. }
  destruct (bool_decide (Expense.current_approver_id expense
                         = Some (User.id approver))) eqn:Ha.
  2:{ left. unfold handle_approval_action, handle_approval_action_with.
      rewrite Hu, Hr, He, Ha. split; [done|]. left. eexists.
      split; [done|in_list]. }
  destruct (action data) as [act|] eqn:Hact.
  2:{ left. unfold handle_approval_action, handle_approval_action_with.
      rewrite Hu, Hr, He, Ha, Hact. split; [done|]. by right. }
  right. apply bool_decide_eq_true in Hr, Ha.
  apply get_Some_elem_of in He as Hin.
  destruct (wf_flow_of_approver s _ _ _ _ Hs Hu Hin) as [flow Hflow].
  destruct (wf_expenses s Hs _ _ Hin) as (_ & _ & _ & Hstep & _).
  destruct (handle_approval_action_effect now1 now2 expense_id data s approver
              expense act flow Hu Hr He Ha Hact Hflow Hstep)
    as (e' & tail & _ & _ & _ & _ & _ & [Hraise|Hreturn]); by auto.
Qed.

Lemma action_outcomes_witness :
  let r := handle_approval_action "t1" "t2" 1 (act_as 2 "approve")
                                  overflow_state in
  (fst r = overflow_state
   ∧ ((∃ resp, snd r = Returns resp ∧ code resp ∈ [403; 404])
      ∨ (action (act_as 2 "approve") = None
         ∧ snd r = Raises "AttributeError")))
  ∨ (∃ resp, snd r = Returns resp ∧ code resp = 200)
  ∨ snd r = Raises "OverflowError".
Proof.
  apply (action_outcomes "t1" "t2" 1 (act_as 2 "approve") overflow_state).
  apply with_flow_submitted_reachable.
Defined.

Lemma set_set {V} k (v1 v2 : V) (d : Py.dict V) :
  Py.set k v2 (Py.set k v1 d) = Py.set k v2 d.
Proof.
  induction d as [|[k' v'] d IH]; simpl.
  - by rewrite decide_True.
  - destruct (decide (k = k')) as [->|Hne]; simpl.
    + by rewrite decide_True.
    + rewrite decide_False by done. by rewrite IH.
Qed.

(** X13: a Percentage rule is stored with any threshold.  When the
    threshold is too large for a float, every action other than 'reject'
    by the current approver ends in OverflowError after its entry was
    appended: status, step and approver stay, so the same request passes
    the checks again, and each repetition leaves one more entry. *)
Theorem threshold_overflow_leaves_entry
    capitalize now1 now2 now3 now4 expense_id data s approver expense act
    flow threshold :
  get_current_user (USERS s) (approver_id data) = Some approver →
  User.role approver ∈ APPROVER_ROLES →
  Py.get expense_id (EXPENSES s) = Some expense →
  Expense.current_approver_id expense = Some (User.id approver) →
  action data = Some act →
  act ≠ "reject" →
  Py.get (User.company_id approver) (APPROVAL_RULES s) = Some flow →
  Rule.type (Flow.conditional flow) = Some "Percentage" →
  Rule.threshold (Flow.conditional flow) = Some threshold →
  Py.float_of_int threshold = None →
  let entry now :=
    Approval.mk (ById (User.id approver)) (User.role approver)
                (capitalize act) (comment data) now in
  let once :=
    Expense.with_history
      (Expense.approvals_history expense ++ [entry now1]) expense in
  let twice :=
    Expense.with_history
      (Expense.approvals_history expense ++ [entry now1; entry now3])
      expense in
  handle_approval_action_with capitalize now1 now2 expense_id data s
  = (store_expense expense_id once s, Raises "OverflowError")
  ∧ handle_approval_action_with capitalize now3 now4 expense_id data
      (store_expense expense_id once s)
    = (store_expense expense_id twice s, Raises "OverflowError").
Proof.
  intros Hu Hr He Ha Hact Hne Hflow Hty Hthr Hfloat entry once twice.
  assert (Heval : ∀ history,
    apply_conditional_rules (APPROVAL_RULES s) (User.company_id approver)
                            history
    = Py.Raise "OverflowError").
  { intros history. destruct flow as [steps rule]. simpl in Hty, Hthr.
    rewrite (apply_percentage_rule _ _ _ _ _ Hflow Hty), Hthr. simpl.
    rewrite bool_decide_eq_false_2.
    - simpl. unfold percentage_met. by rewrite Hfloat.
    - intros ->. by vm_compute in Hfloat. }
  split.
  - rewrite (handle_approval_action_with_passed _ _ _ _ _ _ _ _ _
               Hu Hr He Ha Hact).
    cbv zeta. rewrite (bool_decide_eq_false_2 _ Hne). by rewrite Heval.
  - assert (He' : Py.get expense_id
                    (EXPENSES (store_expense expense_id once s)) = Some once)
      by (simpl; apply get_set_eq).
    rewrite (handle_approval_action_with_passed capitalize now3 now4
               expense_id data (store_expense expense_id once s)
               approver once act Hu Hr He' Ha Hact).
    cbv zeta. rewrite (bool_decide_eq_false_2 _ Hne).
    change (APPROVAL_RULES (store_expense expense_id once s))
      with (APPROVAL_RULES s).
    rewrite Heval. unfold store_expense. simpl. rewrite set_set.
    unfold twice, Expense.with_history. simpl. by rewrite <- app_assoc.
Qed.

Lemma threshold_overflow_leaves_entry_witness :
  let entry now :=
    Approval.mk (ById (User.id demo_manager)) (User.role demo_manager)
                (Py.capitalize "approve") (comment (act_as 2 "approve")) now in
  let once :=
    Expense.with_history
      (Expense.approvals_history scenario_A_new_claim ++ [entry "t1"])
      scenario_A_new_claim in
  let twice :=
    Expense.with_history
      (Expense.approvals_history scenario_A_new_claim
         ++ [entry "t1"; entry "t3"])
      scenario_A_new_claim in
  handle_approval_action_with Py.capitalize "t1" "t2" 1 (act_as 2 "approve")
                              overflow_state
  = (store_expense 1 once overflow_state, Raises "OverflowError")
  ∧ handle_approval_action_with Py.capitalize "t3" "t4" 1
      (act_as 2 "approve") (store_expense 1 once overflow_state)
    = (store_expense 1 twice overflow_state, Raises "OverflowError").
Proof.
  apply (threshold_overflow_leaves_entry Py.capitalize "t1" "t2" "t3" "t4" 1
           (act_as 2 "approve") overflow_state demo_manager
           scenario_A_new_claim "approve"
           (Flow.mk (Flow.steps main_flow)
                    (Rule.mk (Some "Percentage") None (Some huge_threshold)
                             None))
           huge_threshold);
    [reflexivity | in_list | reflexivity | reflexivity | reflexivity
    | discriminate | reflexivity | reflexivity | reflexivity
    | vm_compute; reflexivity].
Defined.

(** ** The pending listing *)




(** ** A claim that waits for somebody who cannot act *)

Lemma handle_stuck_claim_kept r s k e a u :
  wf s → Py.get k (EXPENSES s) = Some e →
  Expense.current_approver_id e = Some a →
  Py.get a (USERS s) = Some u → User.role u ∉ APPROVER_ROLES →
  Py.get k (EXPENSES (fst (handle r s))) = Some e.
Proof.
  intros Hwf He Ha Hu Hrole.
  destruct r as [email|data|data|data|now1 now2 k' data]; simpl.
  - by rewrite (proj1 (signup_expenses email s)).
  - by rewrite (proj1 (manage_user_expenses data s)).
  - by rewrite (proj1 (configure_approval_flow_expenses data s)).
  - destruct (submit_expense_cases data s) as [->|(e' & -> & _)]; [done|].
    rewrite get_set_ne; [done|]. intros <-.
    by apply (wf_expense_keys_below s Hwf), (elem_of_keys _ e),
      get_Some_elem_of.
  - destruct (handle_approval_action_cases now1 now2 k' data s)
      as [[-> _]|(approver & expense & act & Hu' & Hr & He' & Ha' & Hact)];
      [done|].
    destruct (handle_approval_action_result now1 now2 _ _ _ _ _ _
                Hu' Hr He' Ha' Hact) as (e' & tail & -> & _).
    simpl. destruct (decide (k' = k)) as [->|Hne];
      [|by rewrite get_set_ne].
    exfalso. rewrite He in He'. injection He' as <-.
    rewrite Ha in Ha'. injection Ha' as ->.
    destruct (approver_id data) as [sender|]; [|done]. simpl in Hu'.
    apply get_Some_elem_of in Hu' as Hin.
    destruct (wf_users s Hwf _ _ Hin) as (Hid & _).
    rewrite Hid, Hu' in Hu. by injection Hu as <-.
Qed.

(** X15: a claim of a reachable state whose current approver is a stored
    user without an approver role (the first user found for a step of
    role 'Employee', say) stays exactly as it is whatever requests
    follow: only its approver may act on it, and the role check refuses
    that user. *)
Theorem claim_stuck_with_non_approver s k e a u rs :
  reachable s → Py.get k (EXPENSES s) = Some e →
  Expense.current_approver_id e = Some a →
  Py.get a (USERS s) = Some u → User.role u ∉ APPROVER_ROLES →
  Py.get k (EXPENSES (run rs s)) = Some e.
Proof.
  intros Hs%reachable_wf He Ha Hu Hrole. revert s Hs He Hu.
  induction rs as [|r rs IH]; intros s Hwf He Hu; simpl; [done|].
  apply IH; [by apply wf_handle| |by apply handle_users_kept].
  by apply (handle_stuck_claim_kept r s k e a u).
Qed.

Lemma claim_stuck_with_non_approver_witness :
  Py.get 1 (EXPENSES (run [ApprovalAction "t1" "t2" 1 (act_as 3 "approve");
                           ApprovalAction "t3" "t4" 1 (act_as 1 "reject")]
                          employee_step_state))
  = Some employee_step_claim.
Proof.
  apply (claim_stuck_with_non_approver employee_step_state 1
           employee_step_claim 3 demo_employee).
  - apply with_flow_submitted_reachable.
  - reflexivity.
  - reflexivity.
  - reflexivity.
  - intros H. by apply (bool_decide_pack _), Is_true_eq_true in H.
Defined.

(** ** More on the evaluator *)

(** X16: a Specific rule with a non-empty required role is satisfied
    exactly when some entry of the history has that role and the
    decision 'Approved'; the reason names the role.  The step list and
    the other keys of the rule play no part. *)
Theorem specific_rule_satisfied_iff rules company steps rule r history :
  Py.get company rules = Some (Flow.mk steps rule) →
  Rule.type rule = Some "Specific" →
  Rule.required_role rule = Some r → r ≠ "" →
  (Spec.specific_satisfied r history →
   apply_conditional_rules rules company history
   = Py.Return (true, Some (specific_message r)))
  ∧ (¬ Spec.specific_satisfied r history →
     apply_conditional_rules rules company history = Py.Return (false, None)).
Proof.
  intros Hget Hty Hreq Hne. unfold Spec.specific_satisfied.
  rewrite <- specific_approved_spec.
  unfold apply_conditional_rules, specific_block, percentage_block,
    hybrid_block.
  rewrite Hget. simpl. rewrite Hty, Hreq. simpl.
  rewrite (bool_decide_eq_false_2 (r = "")) by done. simpl.
  by destruct (specific_approved r history).
Qed.

Lemma specific_rule_satisfied_iff_witness :
  (Spec.specific_satisfied "Director" director_approved →
   apply_conditional_rules (APPROVAL_RULES main_state) 1 director_approved
   = Py.Return (true, Some (specific_message "Director")))
  ∧ (¬ Spec.specific_satisfied "Director" director_approved →
     apply_conditional_rules (APPROVAL_RULES main_state) 1 director_approved
     = Py.Return (false, None)).
Proof.
  apply (specific_rule_satisfied_iff (APPROVAL_RULES main_state) 1
           (Flow.steps main_flow) (Flow.conditional main_flow) "Director"
           director_approved);
    [reflexivity | reflexivity | reflexivity | discriminate].
Defined.

(** X17: a rule that lacks what its type needs never fires, whatever
    the history: no flow for the company, a type other than the three
    known ones (or none), a Specific rule whose required role is missing
    or empty, a Percentage rule whose threshold is missing or 0, a
    Hybrid rule that lacks one of the two. *)
Theorem incomplete_rule_never_fires rules company history :
  match Py.get company rules with
  | None => True
  | Some flow =>
      let rule := Flow.conditional flow in
      Rule.type rule ∉ [Some "Specific"; Some "Percentage"; Some "Hybrid"]
      ∨ (Rule.type rule = Some "Specific"
         ∧ Py.truthy_str (Rule.required_role rule) = false)
      ∨ (Rule.type rule = Some "Percentage"
         ∧ Py.truthy_int (Rule.threshold rule) = false)
      ∨ (Rule.type rule = Some "Hybrid"
         ∧ (Py.truthy_str (Rule.specific_role rule) = false
            ∨ Py.truthy_int (Rule.threshold rule) = false))
  end →
  apply_conditional_rules rules company history = Py.Return (false, None).
Proof.
  unfold apply_conditional_rules, specific_block, percentage_block,
    hybrid_block.
  destruct (Py.get company rules) as [[steps rule]|]; simpl; [|done].
  intros [Hty|[[Hty Hp]|[[Hty Hp]|[Hty Hp]]]].
  - rewrite !bool_decide_eq_false_2; [done|..];
      intros Heq; apply Hty; rewrite Heq; in_list.
  - rewrite Hty, Hp.
    rewrite (bool_decide_eq_false_2 (Some "Specific" = Some "Percentage"))
      by done.
    rewrite (bool_decide_eq_false_2 (Some "Specific" = Some "Hybrid")) by done.
    by rewrite andb_false_r.
  - rewrite Hty, Hp.
    rewrite (bool_decide_eq_false_2 (Some "Percentage" = Some "Specific"))
      by done.
    rewrite (bool_decide_eq_false_2 (Some "Percentage" = Some "Hybrid"))
      by done.
    by rewrite andb_false_r.
  - rewrite Hty.
    rewrite (bool_decide_eq_false_2 (Some "Hybrid" = Some "Specific")) by done.
    rewrite (bool_decide_eq_false_2 (Some "Hybrid" = Some "Percentage"))
      by done.
    simpl. destruct Hp as [-> | ->]; [done|]. by rewrite andb_false_r.
Qed.

Lemma incomplete_rule_never_fires_witness :
  apply_conditional_rules hybrid_zero 1 director_approved
  = Py.Return (false, None).
Proof.
  apply (incomplete_rule_never_fires hybrid_zero 1 director_approved).
  simpl. right. right. right. split; [reflexivity|]. right. reflexivity.
Defined.

Lemma specific_approved_none r history :
  Forall (λ a, Approval.status a ≠ "Approved") history →
  specific_approved r history = false.
Proof.
  induction 1 as [|a l Ha Hl IH]; simpl; [done|].
  by rewrite IH, (bool_decide_eq_false_2 _ Ha), andb_false_r.
Qed.

(** X18: when no entry of the history has the decision 'Approved', as
    is the case while the clients send the documented actions 'approve'
    and 'reject', which are logged as 'Approve' and 'Reject', no rule
    with a threshold from 0 to 100 fires, whatever its type and its
    roles. *)
Theorem no_rule_fires_without_approved_entry
    rules company steps rule history :
  Py.get company rules = Some (Flow.mk steps rule) →
  valid_roles steps = true →
  (∀ t, Rule.threshold rule = Some t → 0 ≤ t ≤ 100) →
  Forall (λ a, Approval.status a ≠ "Approved") history →
  apply_conditional_rules rules company history = Py.Return (false, None).
Proof.
  intros Hget Hvalid Hthr Hnone.
  assert (Hmet : ∀ t, Py.truthy_int (Some t) = true →
    Rule.threshold rule = Some t →
    percentage_met (flow_roles_of steps) history t = Py.Return false).
  { intros t Htruthy Ht. specialize (Hthr t Ht).
    destruct (percentage_met_spec steps history t Hthr Hvalid)
      as (b & -> & Hb).
    destruct b; [|done]. exfalso.
    destruct (proj1 Hb eq_refl) as [Hne Hge].
    assert (Hempty : Spec.approved_roles steps history = ∅).
    { apply set_eq. intros r. unfold Spec.approved_roles.
      rewrite elem_of_filter, elem_of_empty.
      rewrite <- specific_approved_spec, specific_approved_none by done.
      split; [by intros [? _]|done]. }
    rewrite Hempty, size_empty in Hge.
    assert (Hpos : 0 < Z.of_nat (size (Spec.workflow_roles steps))).
    { destruct (size (Spec.workflow_roles steps)) eqn:E; [|lia].
      by apply size_empty_iff, leibniz_equiv in E. }
    apply ratio_ge_iff in Hge; [|done].
    simpl in Htruthy. apply negb_true_iff, bool_decide_eq_false in Htruthy.
    nia. }
  unfold apply_conditional_rules, specific_block, percentage_block,
    hybrid_block.
  rewrite Hget. simpl. rewrite !specific_approved_none by done.
  destruct (Rule.threshold rule) as [t|] eqn:Ht; simpl.
  - destruct (bool_decide (t = 0)) eqn:Hzero; simpl.
    + rewrite !andb_false_r. by destruct (_ && _).
    + rewrite (Hmet t); [|by simpl; rewrite Hzero|done].
      by repeat case_match.
  - rewrite !andb_false_r. by destruct (_ && _).
Qed.

Lemma no_rule_fires_without_approved_entry_witness :
  apply_conditional_rules percentage_fifty 1
    [Approval.mk (ById 4) "Finance" "Approve" "" "t1";
     Approval.mk (ById 5) "Director" "Approve" "" "t3"]
  = Py.Return (false, None).
Proof.
  apply (no_rule_fires_without_approved_entry percentage_fifty 1
           finance_director
           (Rule.mk (Some "Percentage") None (Some 50) None));
    [reflexivity | reflexivity | intros t [= <-]; lia
    | repeat constructor; discriminate].
Defined.
